(** * Kule: a REST interface for MongoDB

    A shallow embedding of [kule/kule.py] and the properties of its request
    handling.  The module is Python 2 code (it imports [helpers] by an
    implicit relative import, uses [pymongo.Connection] of pymongo 2.5 and
    bottle 0.11.6, and hands the list built by [map] to the encoder), so
    the Python 2 meaning of every construct is the one that is embedded.

    Layout:
    - Python values, documents and the few Python primitives the module
      relies on (truthiness, the Python 2 ordering of mixed types,
      [collections.defaultdict]);
    - the external collaborators as interfaces: the bson codec and the
      pymongo collection API;
    - the bottle request/response state and the handler monad;
    - class [Kule]: the gateway operations, the dispatcher and the error
      handlers;
    - stores implementing the interface (an in-memory one, a recording
      one) and sample instances;
    - the lemmas on each layer, then the properties of the gateway and of
      the dispatcher, each with the request that witnesses or refutes it. *)

From stdpp Require Import gmap strings list fin_maps pretty.
From Stdlib Require Import ZArith Lia Ascii.

(** ** Python values *)

(** The identifier type of the store ([bson.ObjectId]), kept by its
    canonical string form. *)
Inductive oid := Oid (repr : string).

Global Instance oid_eq_dec : EqDecision oid.
Proof. solve_decision. Defined.

(** JSON-compatible Python values as they travel between the request, the
    store and the encoders.  A [dict] is a finite map on its keys. *)
#[warnings="-register-all"]
Inductive value :=
  | VNone
  | VBool (b : bool)
  | VInt (n : Z)
  | VStr (s : string)
  | VOid (o : oid)
  | VList (l : list value)
  | VDict (d : gmap string value).

Abbreviation document := (gmap string value).

Global Instance value_eq_dec : EqDecision value.
Proof.
  refine (fix go (x y : value) {struct x} : Decision (x = y) :=
    let _ : EqDecision value := @go in
    match x, y with
    | VNone, VNone => left _
    | VBool a, VBool b => cast_if (decide (a = b))
    | VInt a, VInt b => cast_if (decide (a = b))
    | VStr a, VStr b => cast_if (decide (a = b))
    | VOid a, VOid b => cast_if (decide (a = b))
    | VList a, VList b => cast_if (decide (a = b))
    | VDict a, VDict b => cast_if (decide (a = b))
    | _, _ => right _
    end); abstract congruence.
Defined.

(** [request.json] is [None] when the request carries no JSON body. *)
Definition json_value (j : option document) : value :=
  match j with
  | None => VNone
  | Some d => VDict d
  end.

(** Truthiness of the objects that the module tests with [if], [and],
    [or]: an empty dict, an empty list, an empty string and [None] are
    false. *)
Definition truthy_doc (d : document) : bool := negb (bool_decide (d = ∅)).

Definition truthy_str (s : string) : bool := negb (bool_decide (s = "")).

Definition dict_keys (d : document) : list string := (map_to_list d).*1.

(** *** Exceptions *)

Inductive exn :=
  | AttributeError
  | TypeError
  | ValueError
  | InvalidId.

(** *** Ordering of objects of different types (Python 2)

    [verify] compares a list with an integer.  CPython 2 orders two
    objects of different types by [default_3way_compare]: each operand
    gets a name, the empty name when it is a number and its type name
    otherwise, and the names are compared as strings. *)
Inductive pyobj :=
  | PyInt (n : Z)
  | PyList (l : list string).

Definition py2_cmp_name (o : pyobj) : string :=
  match o with
  | PyInt _ => ""
  | PyList _ => "list"
  end.

Fixpoint list_compare (a b : list string) : comparison :=
  match a, b with
  | [], [] => Eq
  | [], _ :: _ => Lt
  | _ :: _, [] => Gt
  | x :: a', y :: b' =>
      match String.compare x y with
      | Eq => list_compare a' b'
      | c => c
      end
  end.

Definition py2_compare (a b : pyobj) : comparison :=
  match a, b with
  | PyInt x, PyInt y => Z.compare x y
  | PyList x, PyList y => list_compare x y
  | _, _ => String.compare (py2_cmp_name a) (py2_cmp_name b)
  end.

Definition py2_gt (a b : pyobj) : bool :=
  match py2_compare a b with
  | Gt => true
  | _ => false
  end.

(** *** [collections.defaultdict]

    [d[k]] on a missing key calls the factory, stores its result under
    [k] and returns it: a lookup may change the dictionary. *)
Record defaultdict (V : Type) := DefaultDict {
  dd_factory : V;
  dd_items : gmap string V
}.
Arguments DefaultDict {V} _ _.
Arguments dd_factory {V} _.
Arguments dd_items {V} _.

Definition dd_getitem {V} (d : defaultdict V) (k : string) : V * defaultdict V :=
  match dd_items d !! k with
  | Some v => (v, d)
  | None => (dd_factory d, DefaultDict (dd_factory d) (<[k := dd_factory d]> (dd_items d)))
  end.

(** The dictionary after a run of lookups. *)
Definition dd_lookups {V} (d : defaultdict V) (ks : list string) : defaultdict V :=
  foldl (λ d k, (dd_getitem d k).2) d ks.

(** What [d[k]] evaluates to. *)
Definition dd_value {V} (d : defaultdict V) (k : string) : V :=
  default (dd_factory d) (dd_items d !! k).

(** ** helpers *)

(** Modelled from the spec: [helpers.jsonify] and [helpers.csvify] are not
    among the sources; the core treats encoding as a pluggable formatter
    function keyed by a format token.  The two encoders are kept as names,
    and an encoded body as the encoder applied to the value it was given. *)
Inductive formatter :=
  | jsonify
  | csvify.

Global Instance formatter_eq_dec : EqDecision formatter.
Proof. solve_decision. Defined.

Definition is_digit (c : ascii) : bool :=
  let n := nat_of_ascii c in (48 <=? n)%nat && (n <=? 57)%nat.

Fixpoint digits_value (s : string) (acc : Z) : option Z :=
  match s with
  | EmptyString => Some acc
  | String c r =>
      if is_digit c
      then digits_value r (10 * acc + Z.of_nat (nat_of_ascii c - 48))%Z
      else None
  end.

(** A decimal numeral with an optional sign. *)
Definition parse_int (s : string) : option Z :=
  match s with
  | EmptyString => None
  | String c r =>
      if bool_decide (c = "-"%char) then
        (if bool_decide (r = "") then None else Z.opp <$> digits_value r 0%Z)
      else if bool_decide (c = "+"%char) then
        (if bool_decide (r = "") then None else digits_value r 0%Z)
      else digits_value s 0%Z
  end.

(** Modelled from the spec: [helpers.int_or_default] is not among the
    sources; non-parseable or missing inputs fall back to the default, it
    never fails, and non-numeric or negative input falls back to the
    default. *)
Definition int_or_default (raw : string) (default : Z) : Z :=
  match parse_int raw with
  | Some n => if (n <? 0)%Z then default else n
  | None => default
  end.

(** ** Module-level definitions of [kule.py] *)

(** [verify(json)]: [json.keys() > 3].  [None] has no [keys]. *)
Definition verify (json : option document) : exn + bool :=
  match json with
  | None => inl AttributeError
  | Some d => inr (py2_gt (PyList (dict_keys d)) (PyInt 3))
  end.

Definition formatters : defaultdict formatter :=
  DefaultDict jsonify (<[".json" := jsonify]> (<[".csv" := csvify]> ∅)).

Definition content_types : defaultdict string :=
  DefaultDict "application/json"
    (<[".json" := "application/json"]> (<[".csv" := "text/csv"]> ∅)).

(** ** External collaborators *)

(** The bson codec and the JSON parsers.  [None] stands for the exception
    the library raises: [InvalidId] from [ObjectId], [ValueError] from the
    two parsers.  Filters are JSON objects; [fields] is any JSON value. *)
Class Bson := {
  ObjectId : string → option oid;
  bson_loads : string → option document;
  json_loads : string → option value
}.

(** The part of pymongo's [Collection] that the gateway calls, over a
    store state [db]; the first string is the collection name.  [coll_find]
    gives the documents matching a filter, projected, in the store's
    natural order; [coll_insert] returns the identifier of the new
    document.  Writes are not acknowledged ([Connection] defaults to
    [safe=False]), so they never raise. *)
Class Store (db : Type) := {
  coll_find_one : db → string → document → option document;
  coll_find : db → string → document → option value → list document;
  coll_update : db → string → document → document → db;
  coll_insert : db → string → document → value * db;
  coll_remove : db → string → document → db
}.

(** What the gateway relies on for an update whose filter matches nothing:
    with [upsert=False] it creates no document. *)
Class StoreLaws (db : Type) `{!Store db} : Prop := {
  update_miss : ∀ (s : db) (c : string) (q u : document),
    coll_find_one s c q = None → coll_find_one (coll_update s c q u) c q = None
}.

(** pymongo's [Cursor] is lazy: [find] only records the query; [count]
    and the iteration each ask the store. *)
Record Cursor := MkCursor {
  cur_collection : string;
  cur_spec : document;
  cur_fields : option value;
  cur_skip : Z;
  cur_limit : Z
}.

Definition cursor_skip (cur : Cursor) (n : Z) : Cursor :=
  MkCursor (cur_collection cur) (cur_spec cur) (cur_fields cur) n (cur_limit cur).

Definition cursor_limit (cur : Cursor) (n : Z) : Cursor :=
  MkCursor (cur_collection cur) (cur_spec cur) (cur_fields cur) (cur_skip cur) n.

(** The store's reading of a limit: [0] is no limit (pymongo: a limit of 0
    is equivalent to no limit); a negative number asks for that many
    documents in a single batch. *)
Definition apply_limit {A} (n : Z) (l : list A) : list A :=
  if (n =? 0)%Z then l else take (Z.abs_nat n) l.

(** ** bottle: request, response and the handler monad *)

(** The text [abort] gives an error when the caller gives none. *)
Definition abort_text : string := "Unknown Error: Application stopped.".

(** [request.json] (the parsed body, cached on the request and mutated in
    place by [put_detail]) and [request.GET] / [request.query]. *)
Record request := Request {
  req_json : option document;
  req_GET : gmap string string
}.

Record response := Response {
  status : Z;
  headers : gmap string string
}.

(** What a handler hands back to bottle. *)
Inductive body :=
  | NoBody
  | Formatted (f : formatter) (v : value)
  | ErrorPage (code : Z) (text : string).

(** A handler returns, raises bottle's [HTTPError] (through [abort]) or
    raises another exception. *)
Inductive outcome (A : Type) :=
  | Return (a : A)
  | HTTPError (code : Z) (text : string)
  | Uncaught (e : exn).
Arguments Return {A} _.
Arguments HTTPError {A} _ _.
Arguments Uncaught {A} _.

Section Gateway.
Context {db : Type} `{!Store db} `{!Bson}.

(** [cursor.count()] ignores skip and limit ([with_limit_and_skip=False]). *)
Definition cursor_count (s : db) (cur : Cursor) : Z :=
  Z.of_nat (length (coll_find s (cur_collection cur) (cur_spec cur) (cur_fields cur))).

Definition cursor_list (s : db) (cur : Cursor) : list document :=
  apply_limit (cur_limit cur)
    (drop (Z.to_nat (cur_skip cur))
       (coll_find s (cur_collection cur) (cur_spec cur) (cur_fields cur))).

(** The state a handler runs in: the store, the thread-local request and
    response, and the two module-level registries. *)
Record state := State {
  st_db : db;
  st_request : request;
  st_response : response;
  st_formatters : defaultdict formatter;
  st_content_types : defaultdict string
}.

Definition M (A : Type) : Type := state → outcome A * state.

Definition ret {A} (a : A) : M A := λ s, (Return a, s).

Definition bind {A B} (m : M A) (k : A → M B) : M B :=
  λ s, match m s with
       | (Return a, s') => k a s'
       | (HTTPError c t, s') => (HTTPError c t, s')
       | (Uncaught e, s') => (Uncaught e, s')
       end.

Notation "'let!' x ':=' m 'in' k" := (bind m (λ x, k))
  (at level 10, x name, m at level 100, k at level 200).
Notation "m '>>' k" := (bind m (λ _, k))
  (at level 100, k at level 200, right associativity).

Definition raise {A} (e : exn) : M A := λ s, (Uncaught e, s).

(** [bottle.abort(code)] raises [HTTPError(code, text)] with bottle's
    default text. *)
Definition abort {A} (code : Z) : M A := λ s, (HTTPError code abort_text, s).

(** A library call that raises [e] when it has no result. *)
Definition or_raise {A} (e : exn) (o : option A) : M A :=
  match o with
  | Some a => ret a
  | None => raise e
  end.

Definition get_request : M request := λ s, (Return (st_request s), s).

Definition get_db : M db := λ s, (Return (st_db s), s).

Definition set_db (d : db) : M unit :=
  λ s, (Return tt, State d (st_request s) (st_response s) (st_formatters s) (st_content_types s)).

Definition set_request_json (j : option document) : M unit :=
  λ s, (Return tt,
        State (st_db s) (Request j (req_GET (st_request s))) (st_response s)
          (st_formatters s) (st_content_types s)).

(** [response.status = n] *)
Definition set_status (n : Z) : M unit :=
  λ s, (Return tt,
        State (st_db s) (st_request s) (Response n (headers (st_response s)))
          (st_formatters s) (st_content_types s)).

(** [response[name] = v] sets the header whose name bottle derives from
    [name] by [name.title().replace('_', '-')]; for ["content_type"] that
    is ["Content-Type"]. *)
Definition set_content_type (v : string) : M unit :=
  λ s, (Return tt,
        State (st_db s) (st_request s)
          (Response (status (st_response s)) (<["Content-Type" := v]> (headers (st_response s))))
          (st_formatters s) (st_content_types s)).

(** [formatters[format]] and [content_types[format]] *)
Definition formatters_getitem (k : string) : M formatter :=
  λ s, let '(f, d) := dd_getitem (st_formatters s) k in
       (Return f, State (st_db s) (st_request s) (st_response s) d (st_content_types s)).

Definition content_types_getitem (k : string) : M string :=
  λ s, let '(c, d) := dd_getitem (st_content_types s) k in
       (Return c, State (st_db s) (st_request s) (st_response s) (st_formatters s) d).

(** ** class Kule *)

(** An instance: the allow-list given to [__init__] and the methods a
    subclass adds for the two naming conventions the class resolves with
    [getattr], bundlers ([build_<collection>_bundle]) and views
    ([<method>_<collection>_list], [<method>_<collection>_detail]), each
    under its method name.  A view receives the URL arguments as keyword
    arguments. *)
Record Kule := MkKule {
  collections : option (list string);
  bundlers : gmap string (document → document);
  views : gmap string (gmap string string → M body)
}.

(** [self.collections and collection not in self.collections] *)
Definition get_collection (self : Kule) (collection : string) : M string :=
  match collections self with
  | None => ret collection
  | Some [] => ret collection
  | Some l => if bool_decide (collection ∈ l) then ret collection else abort 403
  end.

Definition build_bundle (data : document) : document := data.

(** [getattr(self, "build_%s_bundle" % collection.name, self.build_bundle)] *)
Definition get_bundler (self : Kule) (collection : string) : document → document :=
  default build_bundle (bundlers self !! ("build_" +:+ collection +:+ "_bundle")).

Definition id_filter (o : oid) : document := {["_id" := VOid o]}.

(** [cursor.find_one({"_id": ObjectId(pk)}) or abort(404)] *)
Definition get_detail (self : Kule) (collection pk : string) : M body :=
  let! cursor := get_collection self collection in
  let! o := or_raise InvalidId (ObjectId pk) in
  let! s := get_db in
  let! data :=
    match coll_find_one s cursor (id_filter o) with
    | Some d => if truthy_doc d then ret d else abort 404
    | None => abort 404
    end in
  ret (Formatted jsonify (VDict (get_bundler self cursor data))).

(** [request.json] is read again at every use; [del request.json['_id']]
    changes the dict all of them see.  On [None] the membership test
    raises [TypeError]. *)
Definition put_detail (self : Kule) (collection pk : string) : M body :=
  let! collection := get_collection self collection in
  let! r := get_request in
  let! _ :=
    match req_json r with
    | None => raise TypeError
    | Some j =>
        if bool_decide (is_Some (j !! "_id"))
        then set_request_json (Some (delete "_id" j))
        else ret tt
    end in
  let! o := or_raise InvalidId (ObjectId pk) in
  let! r := get_request in
  let! j := or_raise TypeError (req_json r) in
  let! s := get_db in
  set_db (coll_update s collection (id_filter o) j) >>
  set_status 202 >>
  let! r := get_request in
  ret (Formatted jsonify (json_value (req_json r))).

Definition patch_detail (self : Kule) (collection pk : string) : M body :=
  let! collection := get_collection self collection in
  let! o := or_raise InvalidId (ObjectId pk) in
  let! r := get_request in
  let! s := get_db in
  set_db (coll_update s collection (id_filter o) {["$set" := json_value (req_json r)]}) >>
  set_status 202 >>
  get_detail self collection pk.

Definition delete_detail (self : Kule) (collection pk : string) : M body :=
  let! collection := get_collection self collection in
  let! o := or_raise InvalidId (ObjectId pk) in
  let! s := get_db in
  set_db (coll_remove s collection (id_filter o)) >>
  set_status 204 >>
  ret NoBody.

Definition post_list (self : Kule) (collection : string) : M body :=
  let! collection := get_collection self collection in
  let! r := get_request in
  match verify (req_json r) with
  | inl e => raise e
  | inr true =>
      let! j := or_raise TypeError (req_json r) in
      let! s := get_db in
      let '(inserted, s') := coll_insert s collection j in
      set_db s' >>
      set_status 201 >>
      ret (Formatted jsonify (VDict {["_id" := inserted]}))
  | inr false =>
      set_status 400 >>
      ret (Formatted jsonify (VDict {["error" := VStr "unverified json request"]}))
  end.

(** [request.GET.get(name)]: [None] when the parameter is missing;
    [request.query.name]: the empty string when it is missing. *)
Definition query_attr (r : request) (name : string) : string :=
  default "" (req_GET r !! name).

(** [bson_loads(query) if query else {}] *)
Definition get_query : M document :=
  let! r := get_request in
  match req_GET r !! "query" with
  | Some q => if truthy_str q then or_raise ValueError (bson_loads q) else ret ∅
  | None => ret ∅
  end.

(** [json.loads(fields) if fields else None] *)
Definition get_fields : M (option value) :=
  let! r := get_request in
  match req_GET r !! "fields" with
  | Some f => if truthy_str f
              then (let! v := or_raise ValueError (json_loads f) in ret (Some v))
              else ret None
  | None => ret None
  end.

Definition meta_dict (limit offset total_count : Z) : document :=
  <["limit" := VInt limit]> (<["offset" := VInt offset]> {["total_count" := VInt total_count]}).

Definition envelope (meta : document) (objects : list document) : value :=
  VDict (<["meta" := VDict meta]> {["objects" := VList (VDict <$> objects)]}).

Definition get_list (self : Kule) (collection format : string) : M body :=
  let! collection := get_collection self collection in
  let! r := get_request in
  let limit := int_or_default (query_attr r "limit") 20 in
  let offset := int_or_default (query_attr r "offset") 0 in
  let! query := get_query in
  let! fields := get_fields in
  let cursor := MkCursor collection query fields 0 0 in
  let! s := get_db in
  let meta := meta_dict limit offset (cursor_count s cursor) in
  let objects := cursor_list s (cursor_limit (cursor_skip cursor offset) limit) in
  let objects := get_bundler self collection <$> objects in
  let! formatter := formatters_getitem format in
  let! content_type := content_types_getitem format in
  set_content_type content_type >>
  ret (Formatted formatter (envelope meta objects)).

Definition empty_response : M body := ret NoBody.

Definition not_implemented : M body := abort 501.

(** [error(error, message)]: [{"error": error.status_code, "message":
    error.body or message}]; the handler for 400 has no default message. *)
Definition error (code : Z) (text : string) (message : option string) : body :=
  Formatted jsonify
    (VDict (<["error" := VInt code]>
      {["message" := if truthy_str text then VStr text
                     else match message with Some m => VStr m | None => VNone end]})).

Definition get_error_handler : gmap Z (Z → string → body) :=
  list_to_map
    [ (500%Z, λ c t, error c t (Some "Internal Server Error."));
      (404%Z, λ c t, error c t (Some "Document Not Found."));
      (501%Z, λ c t, error c t (Some "Not Implemented."));
      (405%Z, λ c t, error c t (Some "Method Not Allowed."));
      (403%Z, λ c t, error c t (Some "Forbidden."));
      (400%Z, λ c t, error c t None) ].

(** ** The dispatcher *)

(** The methods of the instance that can be bound to a route. *)
Inductive view :=
  | view_get_detail
  | view_put_detail
  | view_patch_detail
  | view_delete_detail
  | view_post_list
  | view_get_list
  | view_empty_response
  | view_not_implemented
  | view_custom (f : gmap string string → M body).

(** The view attributes of class [Kule]; [options_list] and
    [options_detail] are two more names of [empty_response]. *)
Definition Kule_views : gmap string view :=
  list_to_map
    [ ("get_detail", view_get_detail);
      ("put_detail", view_put_detail);
      ("patch_detail", view_patch_detail);
      ("delete_detail", view_delete_detail);
      ("post_list", view_post_list);
      ("get_list", view_get_list);
      ("empty_response", view_empty_response);
      ("options_list", view_empty_response);
      ("options_detail", view_empty_response);
      ("not_implemented", view_not_implemented) ].

(** [getattr(self, name, None)]: the instance's own views shadow the
    class's. *)
Definition getattr_view (self : Kule) (name : string) : option view :=
  match views self !! name with
  | Some f => Some (view_custom f)
  | None => Kule_views !! name
  end.

(** Calling a bound method with keyword arguments: every keyword must
    name a parameter and every parameter without a default must be given,
    [TypeError] otherwise. *)
Definition call_collection_pk (f : string → string → M body)
    (kwargs : gmap string string) : M body :=
  match kwargs !! "collection", kwargs !! "pk" with
  | Some c, Some pk => if bool_decide (size kwargs = 2) then f c pk else raise TypeError
  | _, _ => raise TypeError
  end.

Definition call_view (self : Kule) (v : view) (kwargs : gmap string string) : M body :=
  match v with
  | view_get_detail => call_collection_pk (get_detail self) kwargs
  | view_put_detail => call_collection_pk (put_detail self) kwargs
  | view_patch_detail => call_collection_pk (patch_detail self) kwargs
  | view_delete_detail => call_collection_pk (delete_detail self) kwargs
  | view_post_list =>
      match kwargs !! "collection" with
      | Some c => if bool_decide (size kwargs = 1) then post_list self c else raise TypeError
      | None => raise TypeError
      end
  | view_get_list =>
      match kwargs !! "collection", kwargs !! "format" with
      | Some c, Some f =>
          if bool_decide (size kwargs = 2) then get_list self c f else raise TypeError
      | Some c, None =>
          if bool_decide (size kwargs = 1) then get_list self c ".json" else raise TypeError
      | None, _ => raise TypeError
      end
  | view_empty_response => empty_response
  | view_not_implemented => not_implemented
  | view_custom f => f kwargs
  end.

(** The four rules [dispatch_views] registers: ['/%s' % collection],
    ['/%s/:id' % collection], ['/:collection#\w+#:format#(\.[\w\d]+)?#']
    and ['/:collection/:pk']. *)
Inductive rule :=
  | RCollectionList (collection : string)
  | RCollectionDetail (collection : string)
  | RList
  | RDetail.

Global Instance rule_eq_dec : EqDecision rule.
Proof. solve_decision. Defined.

(** A request path by its shape: [/collection] followed by an optional
    [.ext] suffix (the collection made of word characters), [/collection/pk],
    or anything else.  The matching itself is bottle's, by the regular
    expression each rule compiles to. *)
Inductive path :=
  | PList (collection format : string)
  | PDetail (collection pk : string)
  | POther (raw : string).

Definition path_str (p : path) : string :=
  match p with
  | PList c f => "/" +:+ c +:+ f
  | PDetail c pk => "/" +:+ c +:+ "/" +:+ pk
  | POther raw => raw
  end.

(** The keyword arguments a rule extracts from a path it matches. *)
Definition rule_args (r : rule) (p : path) : option (gmap string string) :=
  match r, p with
  | RCollectionList c, PList c' f =>
      if bool_decide (c = c' ∧ f = "") then Some ∅ else None
  | RCollectionDetail c, PDetail c' x =>
      if bool_decide (c = c') then Some {["id" := x]} else None
  | RList, PList c f => Some (<["collection" := c]> {["format" := f]})
  | RDetail, PDetail c pk => Some (<["collection" := c]> {["pk" := pk]})
  | _, _ => None
  end.

(** A rule without wildcards is static. *)
Definition is_static (r : rule) : bool :=
  match r with
  | RCollectionList _ => true
  | _ => false
  end.

(** bottle's [Router]: the rules in the order they were first added, each
    with its targets, a dict from the upper-cased method to the callback. *)
Definition targets := list (string * view).

Definition router := list (rule * targets).

Fixpoint targets_set (ts : targets) (m : string) (v : view) : targets :=
  match ts with
  | [] => [(m, v)]
  | (m', v') :: ts' =>
      if bool_decide (m = m') then (m, v) :: ts' else (m', v') :: targets_set ts' m v
  end.

Fixpoint targets_get (ts : targets) (m : string) : option view :=
  match ts with
  | [] => None
  | (m', v) :: ts' => if bool_decide (m = m') then Some v else targets_get ts' m
  end.

Fixpoint router_add (rt : router) (r : rule) (m : string) (v : view) : router :=
  match rt with
  | [] => [(r, [(m, v)])]
  | (r', ts) :: rt' =>
      if bool_decide (r = r') then (r', targets_set ts m v) :: rt'
      else (r', ts) :: router_add rt' r m v
  end.

Fixpoint first_match (rt : router) (p : path) : option (targets * gmap string string) :=
  match rt with
  | [] => None
  | (r, ts) :: rt' =>
      match rule_args r p with
      | Some kwargs => Some (ts, kwargs)
      | None => first_match rt' p
      end
  end.

(** [Router.match]: a static rule equal to the path wins, then the first
    dynamic rule that matches; no rule gives 404.  Within the rule found,
    the method, [GET] for [HEAD], or [ANY]; otherwise 405. *)
Definition router_match (rt : router) (method : string) (p : path)
    : (Z * string) + (view * gmap string string) :=
  let found :=
    match first_match (List.filter (λ e, is_static e.1) rt) p with
    | Some x => Some x
    | None => first_match (List.filter (λ e, negb (is_static e.1)) rt) p
    end in
  match found with
  | None => inl (404%Z, "Not found: '" +:+ path_str p +:+ "'")
  | Some (ts, kwargs) =>
      match targets_get ts method with
      | Some v => inr (v, kwargs)
      | None =>
          match (if bool_decide (method = "HEAD") then targets_get ts "GET" else None) with
          | Some v => inr (v, kwargs)
          | None =>
              match targets_get ts "ANY" with
              | Some v => inr (v, kwargs)
              | None => inl (405%Z, "Method not allowed.")
              end
          end
      end
  end.

Definition ascii_upper (c : ascii) : ascii :=
  let n := nat_of_ascii c in
  if (97 <=? n)%nat && (n <=? 122)%nat then ascii_of_nat (n - 32) else c.

Fixpoint str_upper (s : string) : string :=
  match s with
  | EmptyString => EmptyString
  | String c r => String (ascii_upper c) (str_upper r)
  end.

(** [self.app.route(rule, method=method)(callback)] *)
Definition app_route (rt : router) (r : rule) (method : string) (v : view) : router :=
  router_add rt r (str_upper method) v.

(** The body of the loop over [self.collections] ("magical views"). *)
Definition dispatch_collection (self : Kule) (method : string) (rt : router)
    (collection : string) : router :=
  let list_view := getattr_view self (method +:+ "_" +:+ collection +:+ "_list") in
  let detail_view := getattr_view self (method +:+ "_" +:+ collection +:+ "_detail") in
  let rt :=
    match list_view with
    | Some v => app_route rt (RCollectionList collection) method v
    | None => rt
    end in
  match detail_view with
  | Some v => app_route rt (RCollectionDetail collection) method v
  | None => rt
  end.

(** The body of the loop over the methods. *)
Definition dispatch_method (self : Kule) (rt : router) (method : string) : router :=
  let rt := foldl (dispatch_collection self method) rt (default [] (collections self)) in
  let rt :=
    app_route rt RList method
      (default view_not_implemented (getattr_view self (method +:+ "_list"))) in
  app_route rt RDetail method
    (default view_not_implemented (getattr_view self (method +:+ "_detail"))).

Definition dispatch_views (self : Kule) : router :=
  foldl (dispatch_method self) [] ["get"; "post"; "options"].

(** ** The [after_request] hook *)

(** [response.content_type] reads the [Content-Type] header, the empty
    string when there is none. *)
Definition response_content_type (r : response) : string :=
  default "" (headers r !! "Content-Type").

(** [after_request]: [response.content_type = response.content_type or
    "application/json"], then the three CORS headers. *)
Definition after_request : M unit :=
  λ s,
    let r := st_response s in
    let ct :=
      if truthy_str (response_content_type r) then response_content_type r
      else "application/json" in
    let h := <["Content-Type" := ct]> (headers r) in
    let h := <["Access-Control-Allow-Origin" := "*"]> h in
    let h := <["Access-Control-Allow-Methods" := "GET, POST, OPTIONS"]> h in
    let h :=
      <["Access-Control-Allow-Headers" :=
          "Origin, Accept, Content-Type, X-Requested-With, X-CSRF-Token"]> h in
    (Return tt,
     State (st_db s) (st_request s) (Response (status r) h)
       (st_formatters s) (st_content_types s)).

(** bottle wraps a route's callback so that the hook runs once the
    callback has returned; the callback's value is what the route
    returns. *)
Definition with_after_request (callback : M body) : M body :=
  let! rv := callback in
  after_request >>
  ret rv.

(** ** bottle: serving one request *)

(** [response.bind()]: status 200 and no header yet. *)
Definition fresh_response : response := Response 200 ∅.

(** Matching the route and calling the view it is bound to, with the URL
    arguments: the route's callback before any hook is put around it. *)
Definition bottle_handle (self : Kule) (method : string) (p : path) : M body :=
  match router_match (dispatch_views self) method p with
  | inl (code, text) => λ s, (HTTPError code text, s)
  | inr (v, kwargs) => call_view self v kwargs
  end.

(** [Bottle._cast]: an [HTTPError] sets the status and is rendered by the
    handler registered for its code, or by bottle's default error page; an
    uncaught exception has become [HTTPError(500, "Internal Server
    Error")] on the way. *)
Definition render_error (code : Z) (text : string) : body :=
  match get_error_handler !! code with
  | Some h => h code text
  | None => ErrorPage code text
  end.

Definition bottle_cast (out : outcome body) (s : state) : Z * body :=
  match out with
  | Return b => (status (st_response s), b)
  | HTTPError code text => (code, render_error code text)
  | Uncaught _ => (500%Z, render_error 500 "Internal Server Error")
  end.

(** The process state when the application starts. *)
Definition initial_state (s : db) : state :=
  State s (Request None ∅) fresh_response formatters content_types.

(** One request: its status and body, and the state it leaves behind. *)
Record served := Served {
  srv_status : Z;
  srv_body : body;
  srv_state : state
}.

(** [request.bind(environ)] and [response.bind()]: the store and the
    registries are the process's, the request and the response are new. *)
Definition bind_request (r : request) (w : state) : state :=
  State (st_db w) r fresh_response (st_formatters w) (st_content_types w).

(** [get_bottle_app]: the application with the routes of
    [dispatch_views], the [after_request] hook around every route's
    callback and the error handlers of [get_error_handler] (which
    [bottle_cast] consults); it is given here as what it runs for a
    method and a path.  An error of the router never reaches a callback,
    so the hook does not run for it. *)
Definition get_bottle_app (self : Kule) (method : string) (p : path) : M body :=
  match router_match (dispatch_views self) method p with
  | inl (code, text) => λ s, (HTTPError code text, s)
  | inr (v, kwargs) => with_after_request (call_view self v kwargs)
  end.

Definition serve (self : Kule) (method : string) (p : path) (r : request) (w : state) : served :=
  let '(out, w') := get_bottle_app self method p (bind_request r w) in
  let '(code, b) := bottle_cast out w' in
  Served code b w'.

(** ** Reading the route table *)

(** The targets of a rule, and the callback bound to a rule and a
    method. *)
Fixpoint router_targets (rt : router) (r : rule) : option targets :=
  match rt with
  | [] => None
  | (r', ts) :: rt' => if bool_decide (r = r') then Some ts else router_targets rt' r
  end.

Definition route_of (rt : router) (r : rule) (m : string) : option view :=
  match router_targets rt r with
  | Some ts => targets_get ts m
  | None => None
  end.

(** Every rule of the table is bound for methods of the list only. *)
Definition methods_within (ms : list string) (rt : router) : Prop :=
  Forall (λ e : rule * targets, Forall (λ t : string * view, t.1 ∈ ms) e.2) rt.

(** The methods [dispatch_views] loops over, and the arguments the two
    generic rules take from a path. *)
Definition enabled_methods : list string := ["get"; "post"; "options"].

Definition list_kwargs (collection format : string) : gmap string string :=
  <["collection" := collection]> {["format" := format]}.

Definition detail_kwargs (collection pk : string) : gmap string string :=
  <["collection" := collection]> {["pk" := pk]}.

(** ** Vocabulary of the properties *)

(** The allow-list check of [get_collection] lets the collection through,
    or stops it. *)
Definition permitted (self : Kule) (c : string) : Prop :=
  match collections self with
  | Some (x :: l) => c ∈ x :: l
  | _ => True
  end.

Definition forbidden (self : Kule) (c : string) : Prop :=
  match collections self with
  | Some (x :: l) => c ∉ x :: l
  | _ => False
  end.

(** The operations on one document. *)
Definition detail_ops : list (Kule → string → string → M body) :=
  [get_detail; put_detail; patch_detail; delete_detail].

(** The route table of an instance that has no views of its own. *)
Definition Kule_router : router :=
  [ (RList, [("GET", view_get_list); ("POST", view_post_list);
             ("OPTIONS", view_empty_response)]);
    (RDetail, [("GET", view_get_detail); ("POST", view_not_implemented);
               ("OPTIONS", view_empty_response)]) ].

End Gateway.

(** The uniform error body. *)
Definition error_envelope (code : Z) (message : string) : body :=
  Formatted jsonify (VDict (<["error" := VInt code]> {["message" := VStr message]})).

(** Reading a page envelope back. *)
Definition envelope_objects (b : body) : list value :=
  match b with
  | Formatted _ (VDict d) =>
      match d !! "objects" with
      | Some (VList l) => l
      | _ => []
      end
  | _ => []
  end.

Definition envelope_meta (b : body) (k : string) : option value :=
  match b with
  | Formatted _ (VDict d) =>
      match d !! "meta" with
      | Some (VDict m) => m !! k
      | _ => None
      end
  | _ => None
  end.

(** ** Stores *)

(** *** An in-memory store

    Each collection is the list of its documents in insertion order.  A
    filter matches a document that has each of its fields with the same
    value (the operators of the filter language are not interpreted). *)
Record memdb := MemDb {
  mem_colls : gmap string (list document);
  mem_next : nat
}.

Definition mem_docs (s : memdb) (c : string) : list document :=
  default [] (mem_colls s !! c).

Definition mem_matches (q d : document) : bool :=
  bool_decide (map_Forall (λ k v, d !! k = Some v) q).

(** A projection keeps the listed fields and the identifier. *)
Definition mem_project (fields : option value) (d : document) : document :=
  match fields with
  | Some (VList names) =>
      filter (λ kv, kv.1 = "_id" ∨ VStr kv.1 ∈ names) d
  | _ => d
  end.

(** The document an update produces: the [$set] fields laid over the old
    document, or the replacement with the old identifier.  The identifier
    of a stored document is immutable: an update that would change it is
    refused, and the document stays as it was. *)
Definition mem_apply (u old : document) : document :=
  let new :=
    match u !! "$set" with
    | Some (VDict fs) => fs ∪ old
    | Some _ => old
    | None =>
        match u !! "_id", old !! "_id" with
        | None, Some i => <["_id" := i]> u
        | _, _ => u
        end
    end in
  if bool_decide (new !! "_id" = old !! "_id") then new else old.

Fixpoint mem_update_first (q u : document) (l : list document) : list document :=
  match l with
  | [] => []
  | d :: l' => if mem_matches q d then mem_apply u d :: l' else d :: mem_update_first q u l'
  end.

Definition mem_fresh_oid (n : nat) : oid := Oid (pretty n).

#[export] Instance MemStore : Store memdb := {
  coll_find_one s c q := head (List.filter (mem_matches q) (mem_docs s c));
  coll_find s c q fields := mem_project fields <$> List.filter (mem_matches q) (mem_docs s c);
  coll_update s c q u :=
    MemDb (<[c := mem_update_first q u (mem_docs s c)]> (mem_colls s)) (mem_next s);
  coll_insert s c d :=
    match d !! "_id" with
    | Some i => (i, MemDb (<[c := mem_docs s c ++ [d]]> (mem_colls s)) (mem_next s))
    | None =>
        let i := VOid (mem_fresh_oid (mem_next s)) in
        (i, MemDb (<[c := mem_docs s c ++ [<["_id" := i]> d]]> (mem_colls s)) (S (mem_next s)))
    end;
  coll_remove s c q :=
    MemDb (<[c := List.filter (λ d, negb (mem_matches q d)) (mem_docs s c)]> (mem_colls s))
      (mem_next s)
}.

(** *** A recording store

    It holds no document and keeps the calls it receives, the latest
    first: what the gateway hands to the store can be read off. *)
Inductive call :=
  | CallUpdate (collection : string) (spec doc : document)
  | CallInsert (collection : string) (doc : document)
  | CallRemove (collection : string) (spec : document).

#[export] Instance RecStore : Store (list call) := {
  coll_find_one _ _ _ := None;
  coll_find _ _ _ _ := [];
  coll_update s c q u := CallUpdate c q u :: s;
  coll_insert s c d := (VNone, CallInsert c d :: s);
  coll_remove s c q := CallRemove c q :: s
}.

(** *** A store whose collections hold one empty mapping *)
#[export] Instance EmptyDocStore : Store unit := {
  coll_find_one _ _ _ := Some ∅;
  coll_find _ _ _ _ := [∅];
  coll_update s _ _ _ := s;
  coll_insert s _ _ := (VNone, s);
  coll_remove s _ _ := s
}.

(** *** A codec

    An identifier is written as 24 hexadecimal digits; a filter or a field
    list is recognised by name. *)
Definition is_hex (c : ascii) : bool :=
  let n := nat_of_ascii c in
  ((48 <=? n) && (n <=? 57) || (97 <=? n) && (n <=? 102) || (65 <=? n) && (n <=? 70))%nat.

Fixpoint all_hex (s : string) : bool :=
  match s with
  | EmptyString => true
  | String c r => is_hex c && all_hex r
  end.

#[export] Instance HexBson : Bson := {
  ObjectId s :=
    if (String.length s =? 24)%nat && all_hex s then Some (Oid s) else None;
  bson_loads s := if bool_decide (s = "{}") then Some ∅ else None;
  json_loads s := if bool_decide (s = "[]") then Some (VList []) else None
}.

(** ** Sample instances and requests *)

Definition hexid : string := "0123456789abcdef01234567".

(** An instance exposing only [users]. *)
Definition users_kule {db} : @Kule db := MkKule (Some ["users"]) ∅ ∅.

(** An instance whose subclass shapes [users] documents. *)
Definition build_users_bundle (data : document) : document :=
  <["bundled" := VBool true]> data.

Definition bundling_kule {db} : @Kule db :=
  MkKule None {["build_users_bundle" := build_users_bundle]} ∅.

Definition mem_empty : memdb := MemDb ∅ 0.

Definition alice : document := <["_id" := VOid (Oid "a")]> {["name" := VStr "alice"]}.

Definition bob : document := <["_id" := VOid (Oid "b")]> {["name" := VStr "bob"]}.

Definition mem_two : memdb := MemDb {["users" := [alice; bob]]} 0.

Definition json_request (j : document) : request := Request (Some j) ∅.

Definition query_request (params : gmap string string) : request := Request None params.

(** An instance whose subclass has a view of its own for the list of
    [users]. *)
Definition get_users_list {db} (kwargs : gmap string string) : @M db body :=
  ret (Formatted jsonify (VStr "users report")).

Definition reporting_kule {db} : @Kule db :=
  MkKule (Some ["users"]) ∅ {["get_users_list" := get_users_list]}.

(** A store with one document whose identifier the codec produces. *)
Definition carol : document :=
  <["_id" := VOid (Oid hexid)]> {["name" := VStr "carol"]}.

Definition mem_carol : memdb := MemDb {["users" := [carol]]} 0.

(** An instance with an allow-list that is empty. *)
Definition empty_list_kule {db} : @Kule db := MkKule (Some []) ∅ ∅.

(** ** Facts about the Python primitives *)

Lemma py2_list_gt_int (l : list string) (n : Z) : py2_gt (PyList l) (PyInt n) = true.
Proof. reflexivity. Qed.

(** Whatever the number of keys, the comparison of [verify] holds. *)
Lemma verify_dict (d : document) : verify (Some d) = inr true.
Proof. unfold verify. by rewrite py2_list_gt_int. Qed.

Section DefaultDict.
Context {V : Type}.
Implicit Types (d : defaultdict V) (k : string).

Lemma dd_getitem_value d k : (dd_getitem d k).1 = dd_value d k.
Proof. unfold dd_getitem, dd_value. by destruct (dd_items d !! k). Qed.

(** A lookup stores only what it returns: later lookups are not changed. *)
Lemma dd_getitem_stable d k k' : dd_value (dd_getitem d k).2 k' = dd_value d k'.
Proof.
  unfold dd_getitem, dd_value.
  destruct (dd_items d !! k) eqn:Hk; simpl; [done|].
  destruct (decide (k = k')) as [->|Hne].
  - by rewrite lookup_insert_eq, Hk.
  - by rewrite lookup_insert_ne.
Qed.

Lemma dd_lookups_stable d ks k : dd_value (dd_lookups d ks) k = dd_value d k.
Proof.
  revert d. induction ks as [|k0 ks IH]; intros d; [done|].
  unfold dd_lookups in *. simpl. by rewrite IH, dd_getitem_stable.
Qed.

End DefaultDict.

Lemma formatters_value (token : string) :
  dd_value formatters token = if decide (token = ".csv") then csvify else jsonify.
Proof.
  unfold dd_value, formatters. simpl.
  destruct (decide (token = ".json")) as [->|H1]; [done|].
  rewrite lookup_insert_ne by done.
  case_decide as H2.
  - subst. by rewrite lookup_insert_eq.
  - by rewrite lookup_insert_ne, lookup_empty.
Qed.

Lemma content_types_value (token : string) :
  dd_value content_types token
  = if decide (token = ".csv") then "text/csv" else "application/json".
Proof.
  unfold dd_value, content_types. simpl.
  destruct (decide (token = ".json")) as [->|H1]; [done|].
  rewrite lookup_insert_ne by done.
  case_decide as H2.
  - subst. by rewrite lookup_insert_eq.
  - by rewrite lookup_insert_ne, lookup_empty.
Qed.

(** ** The gateway operations *)

Section GatewayFacts.
Context {db : Type} `{!Store db} `{!Bson}.
Implicit Types (self : @Kule db) (w : @state db) (c pk : string).

Lemma get_collection_permitted self c w :
  permitted self c → get_collection self c w = (Return c, w).
Proof.
  unfold permitted, get_collection.
  destruct (collections self) as [[|x l]|]; try done.
  intros Hin. by rewrite bool_decide_eq_true_2.
Qed.

Lemma get_collection_forbidden self c w :
  forbidden self c → get_collection self c w = (HTTPError 403 abort_text, w).
Proof.
  unfold forbidden, get_collection.
  destruct (collections self) as [[|x l]|]; try done.
  intros Hin. by rewrite bool_decide_eq_false_2.
Qed.

(** Every operation that reaches the store stops at the allow-list. *)
Lemma forbidden_ops self c w :
  forbidden self c →
  (∀ op pk, op ∈ detail_ops → op self c pk w = (HTTPError 403 abort_text, w))
  ∧ post_list self c w = (HTTPError 403 abort_text, w)
  ∧ (∀ format, get_list self c format w = (HTTPError 403 abort_text, w)).
Proof.
  intros Hf. pose proof (get_collection_forbidden self c w Hf) as Hg.
  split; [|split].
  - intros op pk Hop. unfold detail_ops in Hop.
    rewrite !elem_of_cons, elem_of_nil in Hop.
    destruct Hop as [->|[->|[->|[->|[]]]]];
      unfold get_detail, put_detail, patch_detail, delete_detail, bind; by rewrite Hg.
  - unfold post_list, bind. by rewrite Hg.
  - intros f. unfold get_list, bind. by rewrite Hg.
Qed.

Lemma get_detail_found self c pk o d w :
  permitted self c → ObjectId pk = Some o →
  coll_find_one (st_db w) c (id_filter o) = Some d → d ≠ ∅ →
  get_detail self c pk w = (Return (Formatted jsonify (VDict (get_bundler self c d))), w).
Proof.
  intros Hp Ho Hf Hd. unfold get_detail, bind.
  rewrite (get_collection_permitted _ _ _ Hp), Ho. simpl. rewrite Hf.
  unfold truthy_doc. by rewrite bool_decide_eq_false_2.
Qed.

Lemma get_detail_missing self c pk o w :
  permitted self c → ObjectId pk = Some o →
  coll_find_one (st_db w) c (id_filter o) = None →
  get_detail self c pk w = (HTTPError 404 abort_text, w).
Proof.
  intros Hp Ho Hf. unfold get_detail, bind.
  rewrite (get_collection_permitted _ _ _ Hp), Ho. simpl. by rewrite Hf.
Qed.

(** [put_detail] on a permitted collection, a valid identifier and a JSON
    object: the whole effect. *)
Lemma put_detail_ok self c pk o j w :
  permitted self c → ObjectId pk = Some o → req_json (st_request w) = Some j →
  put_detail self c pk w
  = (Return (Formatted jsonify (VDict (delete "_id" j))),
     State (coll_update (st_db w) c (id_filter o) (delete "_id" j))
       (Request (Some (delete "_id" j)) (req_GET (st_request w)))
       (Response 202 (headers (st_response w)))
       (st_formatters w) (st_content_types w)).
Proof.
  intros Hp Ho Hj. unfold put_detail, bind.
  rewrite (get_collection_permitted _ _ _ Hp). simpl. rewrite Hj.
  case_bool_decide as Hid; simpl; rewrite Ho; simpl.
  - done.
  - rewrite Hj. simpl.
    assert (delete "_id" j = j) as ->.
    { apply delete_id. by rewrite eq_None_not_Some. }
    destruct w as [s [j' g] resp fm ct]; simpl in *. by subst.
Qed.

(** The document [put_detail] hands to the store has no identifier field,
    and the identifier the client sent has no influence on the outcome. *)
Lemma put_detail_discards_id self c pk o j v w :
  permitted self c → ObjectId pk = Some o →
  (delete "_id" (<["_id" := v]> j) : document) !! "_id" = None
  ∧ put_detail self c pk
      (State (st_db w) (Request (Some (<["_id" := v]> j)) (req_GET (st_request w)))
         (st_response w) (st_formatters w) (st_content_types w))
    = put_detail self c pk
        (State (st_db w) (Request (Some (delete "_id" j)) (req_GET (st_request w)))
           (st_response w) (st_formatters w) (st_content_types w)).
Proof.
  intros Hp Ho. split; [apply lookup_delete_eq|].
  rewrite (put_detail_ok self c pk o (<["_id" := v]> j)) by done.
  rewrite (put_detail_ok self c pk o (delete "_id" j)) by done. simpl.
  by rewrite delete_insert_eq, delete_delete_eq.
Qed.

(** [patch_detail] updates, sets 202 and then answers as [get_detail]
    does on the updated store. *)
Lemma patch_detail_unfold self c pk o w :
  permitted self c → ObjectId pk = Some o →
  patch_detail self c pk w
  = get_detail self c pk
      (State (coll_update (st_db w) c (id_filter o)
                {["$set" := json_value (req_json (st_request w))]})
         (st_request w) (Response 202 (headers (st_response w)))
         (st_formatters w) (st_content_types w)).
Proof.
  intros Hp Ho. unfold patch_detail, bind at 1.
  rewrite (get_collection_permitted _ _ _ Hp). unfold bind at 1. by rewrite Ho.
Qed.

(** [post_list] on a permitted collection and a JSON object: it always
    inserts. *)
Lemma post_list_creates self c j w :
  permitted self c → req_json (st_request w) = Some j →
  post_list self c w
  = (Return (Formatted jsonify (VDict {["_id" := (coll_insert (st_db w) c j).1]})),
     State (coll_insert (st_db w) c j).2 (st_request w)
       (Response 201 (headers (st_response w)))
       (st_formatters w) (st_content_types w)).
Proof.
  intros Hp Hj. unfold post_list, bind.
  rewrite (get_collection_permitted _ _ _ Hp). simpl.
  rewrite Hj, verify_dict. simpl.
  by destruct (coll_insert (st_db w) c j) as [i s'].
Qed.

Lemma error_handler_registered (code : Z) :
  code ∈ [500; 404; 501; 405; 403; 400]%Z →
  ∃ m, get_error_handler !! code = Some (λ k t, error k t m).
Proof.
  intros Hc. rewrite !elem_of_cons, elem_of_nil in Hc.
  destruct Hc as [->|[->|[->|[->|[->|[->|[]]]]]]]; eexists; reflexivity.
Qed.

(** [error.body or message]: the text of the error wins when it is not
    empty. *)
Lemma error_with_text (code : Z) (text : string) (m : option string) :
  text ≠ "" → error code text m = error_envelope code text.
Proof.
  intros Ht. unfold error, error_envelope, truthy_str.
  by rewrite bool_decide_eq_false_2.
Qed.

Lemma cast_http_error (code : Z) (text : string) w :
  code ∈ [500; 404; 501; 405; 403; 400]%Z → text ≠ "" →
  bottle_cast (HTTPError code text) w = (code, error_envelope code text).
Proof.
  intros Hc Ht. unfold bottle_cast, render_error.
  destruct (error_handler_registered code Hc) as [m ->].
  by rewrite error_with_text.
Qed.

Lemma cast_uncaught (e : exn) w :
  bottle_cast (Uncaught e) w = (500%Z, error_envelope 500 "Internal Server Error").
Proof. reflexivity. Qed.

End GatewayFacts.

(** ** Pagination *)

Lemma int_or_default_nonneg (raw : string) (default : Z) :
  (0 ≤ default)%Z → (0 ≤ int_or_default raw default)%Z.
Proof.
  intros Hd. unfold int_or_default.
  destruct (parse_int raw) as [n|]; [|done].
  destruct (n <? 0)%Z eqn:Hn; [done|]. by apply Z.ltb_ge.
Qed.

Lemma apply_limit_length {A} (n : Z) (l : list A) :
  (0 < n)%Z → (Z.of_nat (length (apply_limit n l)) ≤ n)%Z.
Proof.
  intros Hn. unfold apply_limit.
  destruct (n =? 0)%Z eqn:H0; [apply Z.eqb_eq in H0; lia|].
  rewrite length_take. lia.
Qed.

Lemma apply_limit_zero {A} (l : list A) : apply_limit 0 l = l.
Proof. reflexivity. Qed.

Lemma envelope_objects_length (f : formatter) (meta : document) (objects : list document) :
  length (envelope_objects (Formatted f (envelope meta objects))) = length objects.
Proof.
  unfold envelope_objects, envelope.
  rewrite lookup_insert_ne by done. rewrite lookup_singleton_eq.
  by rewrite length_fmap.
Qed.

Lemma envelope_meta_lookup (f : formatter) (meta : document) (objects : list document)
    (k : string) :
  envelope_meta (Formatted f (envelope meta objects)) k = meta !! k.
Proof. unfold envelope_meta, envelope. by rewrite lookup_insert_eq. Qed.

Section ListFacts.
Context {db : Type} `{!Store db} `{!Bson}.
Implicit Types (self : @Kule db) (w : @state db) (c pk : string).

(** [get_list] on a permitted collection whose parameters parse: the
    whole effect. *)
Lemma get_list_ok self c format q fields w :
  permitted self c →
  get_query w = (Return q, w) → get_fields w = (Return fields, w) →
  let limit := int_or_default (query_attr (st_request w) "limit") 20 in
  let offset := int_or_default (query_attr (st_request w) "offset") 0 in
  let matching := coll_find (st_db w) c q fields in
  get_list self c format w
  = (Return (Formatted (dd_value (st_formatters w) format)
       (envelope (meta_dict limit offset (Z.of_nat (length matching)))
          (get_bundler self c <$> apply_limit limit (drop (Z.to_nat offset) matching)))),
     State (st_db w) (st_request w)
       (Response (status (st_response w))
          (<["Content-Type" := dd_value (st_content_types w) format]>
             (headers (st_response w))))
       (dd_getitem (st_formatters w) format).2
       (dd_getitem (st_content_types w) format).2).
Proof.
  intros Hp Hq Hf. simpl. unfold get_list, bind.
  rewrite (get_collection_permitted _ _ _ Hp). simpl.
  rewrite Hq, Hf. simpl.
  unfold formatters_getitem, content_types_getitem. simpl.
  rewrite <- !dd_getitem_value.
  destruct (dd_getitem (st_formatters w) format) as [fm d1]. simpl.
  destruct (dd_getitem (st_content_types w) format) as [ct d2]. reflexivity.
Qed.

Lemma get_query_malformed (raw : string) w :
  req_GET (st_request w) !! "query" = Some raw → raw ≠ "" → bson_loads raw = None →
  get_query w = (Uncaught ValueError, w).
Proof.
  intros Hq Hraw Hb. unfold get_query, bind. simpl. rewrite Hq.
  unfold truthy_str. rewrite bool_decide_eq_false_2 by done. simpl. by rewrite Hb.
Qed.

Lemma get_list_malformed self c format (raw : string) w :
  permitted self c →
  req_GET (st_request w) !! "query" = Some raw → raw ≠ "" → bson_loads raw = None →
  get_list self c format w = (Uncaught ValueError, w).
Proof.
  intros Hp Hq Hraw Hb. unfold get_list, bind.
  rewrite (get_collection_permitted _ _ _ Hp). simpl.
  by rewrite (get_query_malformed raw).
Qed.

(** A detail operation given a string the codec refuses raises, and
    leaves the store as it was. *)
Lemma detail_invalid_id self c pk w op :
  permitted self c → ObjectId pk = None → op ∈ detail_ops →
  ∃ e w', op self c pk w = (Uncaught e, w') ∧ st_db w' = st_db w.
Proof.
  intros Hp Ho Hop. unfold detail_ops in Hop.
  rewrite !elem_of_cons, elem_of_nil in Hop.
  destruct Hop as [->|[->|[->|[->|[]]]]].
  - exists InvalidId, w. unfold get_detail, bind.
    by rewrite (get_collection_permitted _ _ _ Hp), Ho.
  - unfold put_detail, bind.
    rewrite (get_collection_permitted _ _ _ Hp). simpl.
    destruct (req_json (st_request w)) as [j|]; [|by exists TypeError, w].
    case_bool_decide; simpl; rewrite Ho; simpl; eauto.
  - exists InvalidId, w. unfold patch_detail, bind.
    by rewrite (get_collection_permitted _ _ _ Hp), Ho.
  - exists InvalidId, w. unfold delete_detail, bind.
    by rewrite (get_collection_permitted _ _ _ Hp), Ho.
Qed.

End ListFacts.

(** ** The route table *)

Lemma append_nil (s : string) : "" +:+ s = s.
Proof. reflexivity. Qed.

Lemma append_cons (a : ascii) (s t : string) : String a s +:+ t = String a (s +:+ t).
Proof. reflexivity. Qed.

(** Refutes an equation between a string with one unknown part and a
    literal. *)
Ltac string_neq H :=
  repeat (rewrite ?append_cons, ?append_nil in H;
          match type of H with
          | String _ _ = String _ _ =>
              first [discriminate H | injection H as _ H | injection H as H]
          | EmptyString = String _ _ => discriminate H
          | String _ _ = EmptyString => discriminate H
          | (?c +:+ _) = _ => is_var c; destruct c
          end).

Ltac in_list := repeat first [apply list_elem_of_here | apply list_elem_of_further].

Section Dispatch.
Context {db : Type} `{!Store db} `{!Bson}.
Implicit Types (self : @Kule db) (w : @state db) (c pk : string).

(** No attribute of class [Kule] has the name of a per-collection view. *)
Lemma Kule_views_no_magic (m c suffix : string) :
  m ∈ ["get"; "post"; "options"] → suffix ∈ ["_list"; "_detail"] →
  @Kule_views db !! (m +:+ "_" +:+ c +:+ suffix) = None.
Proof.
  intros Hm Hs.
  rewrite !elem_of_cons, elem_of_nil in Hm. rewrite !elem_of_cons, elem_of_nil in Hs.
  destruct Hm as [->|[->|[->|[]]]]; destruct Hs as [->|[->|[]]];
  apply not_elem_of_list_to_map_1; simpl;
  repeat (apply not_elem_of_cons; split); try apply not_elem_of_nil;
  intros Heq; string_neq Heq.
Qed.

Lemma dispatch_collection_plain self (m : string) (rt : @router db) c :
  views self = ∅ → m ∈ ["get"; "post"; "options"] →
  dispatch_collection self m rt c = rt.
Proof.
  intros Hv Hm. unfold dispatch_collection, getattr_view.
  rewrite Hv, !lookup_empty.
  rewrite !Kule_views_no_magic; [done|done|in_list|done|in_list].
Qed.

Lemma dispatch_views_plain self : views self = ∅ → dispatch_views self = Kule_router.
Proof.
  intros Hv. unfold dispatch_views. simpl.
  assert (∀ m rt l, m ∈ ["get"; "post"; "options"] →
            foldl (dispatch_collection self m) rt l = rt) as Hfold.
  { intros m rt l Hm. induction l as [|c l IH]; simpl; [done|].
    by rewrite dispatch_collection_plain. }
  unfold dispatch_method. rewrite !Hfold by in_list.
  unfold getattr_view. rewrite Hv, !lookup_empty. reflexivity.
Qed.

(** What each request resolves to on an instance without views of its
    own. *)
Lemma handle_get_list self c (f : string) :
  views self = ∅ → bottle_handle self "GET" (PList c f) = get_list self c f.
Proof. intros Hv. unfold bottle_handle. by rewrite dispatch_views_plain. Qed.

Lemma handle_get_detail self c pk :
  views self = ∅ → bottle_handle self "GET" (PDetail c pk) = get_detail self c pk.
Proof. intros Hv. unfold bottle_handle. by rewrite dispatch_views_plain. Qed.

Lemma handle_post_detail self c pk :
  views self = ∅ → bottle_handle self "POST" (PDetail c pk) = not_implemented.
Proof. intros Hv. unfold bottle_handle. by rewrite dispatch_views_plain. Qed.

Lemma handle_options self (p : path) :
  views self = ∅ → (∀ raw, p ≠ POther raw) →
  bottle_handle self "OPTIONS" p = empty_response.
Proof.
  intros Hv Hp. unfold bottle_handle. rewrite dispatch_views_plain by done.
  destruct p as [c f|c pk|raw]; [done|done|]. by destruct (Hp raw).
Qed.

Lemma handle_disabled self (m : string) (p : path) :
  views self = ∅ → m ∈ ["PUT"; "PATCH"; "DELETE"] → (∀ raw, p ≠ POther raw) →
  bottle_handle self m p = λ s, (HTTPError 405 "Method not allowed.", s).
Proof.
  intros Hv Hm Hp. unfold bottle_handle. rewrite dispatch_views_plain by done.
  rewrite !elem_of_cons, elem_of_nil in Hm.
  destruct p as [c f|c pk|raw]; [| |by destruct (Hp raw)];
    destruct Hm as [->|[->|[->|[]]]]; reflexivity.
Qed.

(** The application is the route with the hook around it. *)
Lemma get_bottle_app_hook self (m : string) (p : path) :
  get_bottle_app self m p = with_after_request (bottle_handle self m p).
Proof.
  unfold get_bottle_app, bottle_handle.
  by destruct (router_match (dispatch_views self) m p) as [[code text]|[v kwargs]].
Qed.

(** A request by what its route does: an error skips the hook, a value
    goes through it. *)
Lemma serve_of_error self (m : string) (p : path) (r : request) w (code : Z)
    (text : string) w' :
  bottle_handle self m p (bind_request r w) = (HTTPError code text, w') →
  serve self m p r w = Served code (render_error code text) w'.
Proof.
  intros Hrun. unfold serve. rewrite get_bottle_app_hook.
  unfold with_after_request, bind. by rewrite Hrun.
Qed.

Lemma serve_of_uncaught self (m : string) (p : path) (r : request) w (e : exn) w' :
  bottle_handle self m p (bind_request r w) = (Uncaught e, w') →
  serve self m p r w = Served 500 (render_error 500 "Internal Server Error") w'.
Proof.
  intros Hrun. unfold serve. rewrite get_bottle_app_hook.
  unfold with_after_request, bind. by rewrite Hrun.
Qed.

Lemma serve_of_return self (m : string) (p : path) (r : request) w (b : body) w' :
  bottle_handle self m p (bind_request r w) = (Return b, w') →
  serve self m p r w = Served (status (st_response w')) b (after_request w').2.
Proof.
  intros Hrun. unfold serve. rewrite get_bottle_app_hook.
  unfold with_after_request, bind. by rewrite Hrun.
Qed.

End Dispatch.

(** ** The in-memory store keeps the law *)

Lemma mem_update_first_miss (q u : document) (l : list document) :
  List.filter (mem_matches q) l = [] → mem_update_first q u l = l.
Proof.
  induction l as [|d l IH]; simpl; [done|].
  destruct (mem_matches q d); [done|]. intros Hl. by rewrite IH.
Qed.

#[export] Instance MemStoreLaws : StoreLaws memdb.
Proof.
  constructor. intros s c q u. simpl. unfold mem_docs at 2. simpl.
  rewrite lookup_insert_eq. simpl.
  destruct (List.filter (mem_matches q) (mem_docs s c)) as [|d l] eqn:Hl; [|done].
  intros _. by rewrite mem_update_first_miss, Hl.
Qed.

(** ** The properties *)

Section Properties.
Context {db : Type} `{!Store db} `{!Bson}.
Implicit Types (self : @Kule db) (w : @state db) (c pk : string).

(** C3, as the code has it: a detail operation given a string that is not
    a valid identifier, and [get_list] given a filter that does not parse,
    are not caught in the gateway.  On a permitted collection, each of the
    two, on its own, leaves the operation with an uncaught exception and
    the store as it was, and bottle's generic error path answers 500 with
    the uniform error envelope. *)
Theorem invalid_input_goes_uncaught self c w :
  permitted self c →
  (∀ op pk, op ∈ detail_ops → ObjectId pk = None →
     ∃ e w', op self c pk w = (Uncaught e, w')
             ∧ st_db w' = st_db w
             ∧ bottle_cast (Uncaught e) w'
               = (500%Z, error_envelope 500 "Internal Server Error"))
  ∧ (∀ (format raw : string),
       req_GET (st_request w) !! "query" = Some raw → raw ≠ "" → bson_loads raw = None →
       get_list self c format w = (Uncaught ValueError, w)
       ∧ bottle_cast (Uncaught ValueError) w
         = (500%Z, error_envelope 500 "Internal Server Error")).
Proof.
  intros Hp. split.
  - intros op pk Hop Ho.
    destruct (detail_invalid_id self c pk w op Hp Ho Hop) as (e & w' & Hrun & Hdb).
    exists e, w'. by rewrite Hrun, Hdb, cast_uncaught.
  - intros format raw Hq Hraw Hb. split; [|apply cast_uncaught].
    by apply (get_list_malformed self c format raw).
Qed.

(** C4, as the code has it: on a permitted collection, with a valid
    identifier and a JSON object as payload, [put_detail] returns the
    payload without its identifier field, exactly as it was sent (no
    bundler is applied to it), with status 202. *)
Theorem put_detail_returns_payload_unbundled self c pk (o : oid) (j : document) w :
  permitted self c →
  ObjectId pk = Some o →
  req_json (st_request w) = Some j →
  (put_detail self c pk w).1 = Return (Formatted jsonify (VDict (delete "_id" j)))
  ∧ status (st_response (put_detail self c pk w).2) = 202%Z.
Proof.
  intros Hp Ho Hj. by rewrite (put_detail_ok self c pk o j w Hp Ho Hj).
Qed.

(** C6, as the code has it: on a permitted collection whose filter and
    field list parse, [get_list] returns an envelope whose
    [meta.total_count] is the number of documents matching the filter
    before skip and limit are applied, for every limit and offset; the
    [objects] list has at most [limit] elements when the limit is
    positive, and a limit of 0 is the store's "no limit": every matching
    document after the offset is returned. *)
Theorem get_list_page self c (format : string) (q : document) (fields : option value) w :
  permitted self c →
  get_query w = (Return q, w) →
  get_fields w = (Return fields, w) →
  let limit := int_or_default (query_attr (st_request w) "limit") 20 in
  let offset := int_or_default (query_attr (st_request w) "offset") 0 in
  let matching := coll_find (st_db w) c q fields in
  ∃ b w',
    get_list self c format w = (Return b, w')
    ∧ envelope_meta b "limit" = Some (VInt limit)
    ∧ envelope_meta b "offset" = Some (VInt offset)
    ∧ envelope_meta b "total_count" = Some (VInt (Z.of_nat (length matching)))
    ∧ ((0 < limit)%Z → (Z.of_nat (length (envelope_objects b)) ≤ limit)%Z)
    ∧ (limit = 0%Z →
       length (envelope_objects b) = length (drop (Z.to_nat offset) matching)).
Proof.
  intros Hp Hq Hf limit offset matching.
  eexists _, _. split; [by apply get_list_ok|].
  rewrite !envelope_meta_lookup, envelope_objects_length, length_fmap.
  repeat split.
  - by apply apply_limit_length.
  - fold limit. by intros ->.
Qed.

(** C9: on a permitted collection and a valid identifier, when the store
    answers [find_one] with an empty mapping, [get_detail] aborts with
    404, which the error handler renders as the Not Found envelope; the
    empty document is not returned. *)
Theorem get_detail_empty_document_is_not_found self c pk (o : oid) w :
  permitted self c →
  ObjectId pk = Some o →
  coll_find_one (st_db w) c (id_filter o) = Some ∅ →
  get_detail self c pk w = (HTTPError 404 abort_text, w)
  ∧ bottle_cast (HTTPError 404 abort_text) w = (404%Z, error_envelope 404 abort_text).
Proof.
  intros Hp Ho Hf. split.
  - unfold get_detail, bind.
    rewrite (get_collection_permitted _ _ _ Hp), Ho. simpl. by rewrite Hf.
  - apply cast_http_error; [in_list|done].
Qed.

(** C10: on a permitted collection and a valid identifier that matches no
    stored document, [patch_detail] applies the update (which changes
    nothing that the identifier matches), sets the status to 202 and then
    delegates to [get_detail], which aborts with 404: the response is Not
    Found, not "accepted". *)
Theorem patch_detail_missing_is_not_found `{!StoreLaws db} self c pk (o : oid) w :
  permitted self c →
  ObjectId pk = Some o →
  coll_find_one (st_db w) c (id_filter o) = None →
  ∃ w',
    patch_detail self c pk w = (HTTPError 404 abort_text, w')
    ∧ status (st_response w') = 202%Z
    ∧ bottle_cast (HTTPError 404 abort_text) w' = (404%Z, error_envelope 404 abort_text).
Proof.
  intros Hp Ho Hf. eexists. split; [|split].
  - rewrite (patch_detail_unfold self c pk o w Hp Ho).
    apply (get_detail_missing self c pk o); [done|done|].
    simpl. by apply update_miss.
  - done.
  - apply cast_http_error; [in_list|done].
Qed.

End Properties.

(** C8: the formatter and the content type that [get_list] reads from the
    two registries, after any run of earlier lookups (a lookup of an
    unknown token stores the default under it): [".csv"] gives the CSV
    encoder and [text/csv], every other token, [".json"] and the empty
    one included, gives the JSON encoder and [application/json]; the
    lookup has no failure case. *)
Theorem formatter_resolution_total (history : list string) (token : string) :
  (dd_getitem (dd_lookups formatters history) token).1
    = (if decide (token = ".csv") then csvify else jsonify)
  ∧ (dd_getitem (dd_lookups content_types history) token).1
    = (if decide (token = ".csv") then "text/csv" else "application/json").
Proof.
  rewrite !dd_getitem_value, !dd_lookups_stable.
  split; [apply formatters_value | apply content_types_value].
Qed.

(** ** The properties on concrete requests *)

(** C1, where the code departs from it: a create payload with a single
    field, posted to a permitted collection.  The comparison in [verify]
    is between the list of keys and a number, which holds whatever the
    list, so the payload is inserted and the answer is 201 with the new
    identifier, not 400. *)
Theorem post_list_inserts_one_field_payload :
  let w := bind_request (json_request {["name" := VStr "x"]}) (initial_state mem_empty) in
  (post_list users_kule "users" w).1
    = Return (Formatted jsonify (VDict {["_id" := VOid (mem_fresh_oid 0)]}))
  ∧ status (st_response (post_list users_kule "users" w).2) = 201%Z
  ∧ mem_docs (st_db (post_list users_kule "users" w).2) "users"
    = [<["_id" := VOid (mem_fresh_oid 0)]> {["name" := VStr "x"]}].
Proof.
  intros w.
  rewrite (post_list_creates users_kule "users" {["name" := VStr "x"]} w);
    [|apply list_elem_of_here|done].
  by vm_compute.
Qed.

(** C2, where the code departs from it: [patch_detail] given a payload
    with an identifier field.  The update it hands to the store is
    [{"$set": payload}] with the client's [_id] still in it; only
    [put_detail] removes the field. *)
Theorem patch_detail_sends_client_id :
  let payload : document := <["_id" := VStr "someone-else"]> {["name" := VStr "x"]} in
  let w := bind_request (json_request payload) (initial_state ([] : list call)) in
  st_db (patch_detail users_kule "users" hexid w).2
    = [CallUpdate "users" (id_filter (Oid hexid)) {["$set" := VDict payload]}]
  ∧ payload !! "_id" = Some (VStr "someone-else").
Proof. by vm_compute. Qed.

(** C3 does not hold: a GET for a document with an identifier the codec
    refuses is answered 500. *)
Lemma invalid_identifier_is_answered_500 :
  srv_status (serve users_kule "GET" (PDetail "users" "not-an-id")
                (query_request ∅) (initial_state mem_empty)) = 500%Z
  ∧ srv_status (serve users_kule "GET" (PDetail "users" "not-an-id")
                  (query_request ∅) (initial_state mem_empty)) ≠ 400%Z.
Proof. by vm_compute. Qed.

Lemma invalid_input_goes_uncaught_witness :
  (∀ op, op ∈ detail_ops →
     ∃ e w', op users_kule "users" "not-an-id"
               (bind_request (query_request ∅) (initial_state mem_empty))
             = (Uncaught e, w')
             ∧ st_db w' = mem_empty
             ∧ bottle_cast (Uncaught e) w'
               = (500%Z, error_envelope 500 "Internal Server Error"))
  ∧ get_list users_kule "users" ".json"
      (bind_request (query_request {["query" := "{oops"]}) (initial_state mem_empty))
    = (Uncaught ValueError,
       bind_request (query_request {["query" := "{oops"]}) (initial_state mem_empty)).
Proof.
  split.
  - intros op Hop.
    refine (proj1 (invalid_input_goes_uncaught users_kule "users"
                     (bind_request (query_request ∅) (initial_state mem_empty)) _)
              op "not-an-id" Hop _).
    + apply list_elem_of_here.
    + reflexivity.
  - refine (proj1 (proj2 (invalid_input_goes_uncaught users_kule "users"
                     (bind_request (query_request {["query" := "{oops"]})
                        (initial_state mem_empty)) _)
                    ".json" "{oops" _ _ _)).
    + apply list_elem_of_here.
    + reflexivity.
    + discriminate.
    + reflexivity.
Defined.

(** C4 does not hold: for a collection with a bundler, what [put_detail]
    returns is not the bundled payload. *)
Lemma put_detail_skips_the_bundler :
  let payload : document := {["name" := VStr "x"]} in
  let w := bind_request (json_request payload) (initial_state mem_two) in
  (put_detail bundling_kule "users" hexid w).1
    ≠ Return (Formatted jsonify (VDict (get_bundler (bundling_kule (db:=memdb)) "users" payload))).
Proof.
  intros payload w Heq.
  apply (f_equal (λ out, match out with
                         | Return (Formatted _ (VDict d)) => d !! "bundled"
                         | _ => None
                         end)) in Heq.
  vm_compute in Heq. discriminate Heq.
Qed.

Lemma put_detail_returns_payload_unbundled_witness :
  let payload : document := {["name" := VStr "x"]} in
  let w := bind_request (json_request payload) (initial_state mem_two) in
  (put_detail bundling_kule "users" hexid w).1
    = Return (Formatted jsonify (VDict (delete "_id" payload)))
  ∧ status (st_response (put_detail bundling_kule "users" hexid w).2) = 202%Z.
Proof.
  intros payload w.
  apply (put_detail_returns_payload_unbundled bundling_kule "users" hexid (Oid hexid)
           payload w).
  - exact I.
  - reflexivity.
  - reflexivity.
Defined.

(** C5 does not hold: with the allow-list [users], an OPTIONS request for
    [orders] is answered 200. *)
Lemma options_bypasses_the_allow_list :
  srv_status (serve users_kule "OPTIONS" (PList "orders" "")
                (query_request ∅) (initial_state mem_empty)) = 200%Z
  ∧ srv_status (serve users_kule "OPTIONS" (PList "orders" "")
                  (query_request ∅) (initial_state mem_empty)) ≠ 403%Z.
Proof. by vm_compute. Qed.

(** C6 does not hold: with [limit=0] the two stored documents are both
    returned, more than the limit. *)
Lemma limit_zero_returns_every_document :
  let b := srv_body (serve users_kule "GET" (PList "users" "")
                       (query_request {["limit" := "0"]}) (initial_state mem_two)) in
  envelope_meta b "limit" = Some (VInt 0)
  ∧ length (envelope_objects b) = 2
  ∧ ¬ (Z.of_nat (length (envelope_objects b)) ≤ 0)%Z.
Proof. by vm_compute. Qed.

Lemma get_list_page_witness :
  let w := bind_request (query_request {["limit" := "1"]}) (initial_state mem_two) in
  ∃ b w',
    get_list users_kule "users" "" w = (Return b, w')
    ∧ envelope_meta b "limit" = Some (VInt 1)
    ∧ envelope_meta b "offset" = Some (VInt 0)
    ∧ envelope_meta b "total_count" = Some (VInt 2)
    ∧ ((0 < 1)%Z → (Z.of_nat (length (envelope_objects b)) ≤ 1)%Z)
    ∧ (1%Z = 0%Z → length (envelope_objects b) = 2).
Proof.
  intros w.
  refine (get_list_page users_kule "users" "" ∅ None w _ _ _).
  - apply list_elem_of_here.
  - reflexivity.
  - reflexivity.
Defined.

(** C7 does not hold: a DELETE on a document route is answered 405. *)
Lemma delete_is_answered_405 :
  srv_status (serve users_kule "DELETE" (PDetail "users" hexid)
                (query_request ∅) (initial_state mem_two)) = 405%Z
  ∧ srv_status (serve users_kule "DELETE" (PDetail "users" hexid)
                  (query_request ∅) (initial_state mem_two)) ≠ 501%Z.
Proof. by vm_compute. Qed.

Lemma get_detail_empty_document_is_not_found_witness :
  let w := bind_request (query_request ∅) (initial_state tt) in
  coll_find_one tt "users" (id_filter (Oid hexid)) = Some ∅
  ∧ get_detail users_kule "users" hexid w = (HTTPError 404 abort_text, w)
  ∧ bottle_cast (HTTPError 404 abort_text) w = (404%Z, error_envelope 404 abort_text).
Proof.
  intros w. split; [reflexivity|].
  apply (get_detail_empty_document_is_not_found users_kule "users" hexid (Oid hexid) w).
  - apply list_elem_of_here.
  - reflexivity.
  - reflexivity.
Defined.

Lemma patch_detail_missing_is_not_found_witness :
  let w := bind_request (json_request {["name" := VStr "carol"]}) (initial_state mem_two) in
  ∃ w',
    patch_detail users_kule "users" hexid w = (HTTPError 404 abort_text, w')
    ∧ status (st_response w') = 202%Z
    ∧ bottle_cast (HTTPError 404 abort_text) w' = (404%Z, error_envelope 404 abort_text).
Proof.
  intros w.
  apply (patch_detail_missing_is_not_found users_kule "users" hexid (Oid hexid) w).
  - apply list_elem_of_here.
  - reflexivity.
  - reflexivity.
Defined.

(** ** Further properties of the gateway *)

Section GatewayExtras.
Context {db : Type} `{!Store db} `{!Bson}.
Implicit Types (self : @Kule db) (w : @state db) (c pk : string).

Lemma get_collection_cases self c w :
  get_collection self c w = (Return c, w)
  ∨ get_collection self c w = (HTTPError 403 abort_text, w).
Proof.
  unfold get_collection.
  destruct (collections self) as [[|x l]|]; [by left| |by left].
  case_bool_decide; [by left|by right].
Qed.

Lemma get_query_state w : (get_query w).2 = w.
Proof.
  unfold get_query, bind. simpl.
  destruct (req_GET (st_request w) !! "query") as [q|]; [|done].
  destruct (truthy_str q); [|done]. by destruct (bson_loads q).
Qed.

Lemma get_fields_state w : (get_fields w).2 = w.
Proof.
  unfold get_fields, bind. simpl.
  destruct (req_GET (st_request w) !! "fields") as [f|]; [|done].
  destruct (truthy_str f); [|done]. by destruct (json_loads f).
Qed.

(** X1: [get_detail] only reads.  Whatever the allow-list, the identifier
    and the store answer, the store, the request, the response and the
    registries are after the call what they were before it. *)
Theorem get_detail_read_only self c pk w : (get_detail self c pk w).2 = w.
Proof.
  unfold get_detail, bind.
  destruct (get_collection_cases self c w) as [-> | ->]; [|done].
  destruct (ObjectId pk) as [o|]; simpl; [|done].
  destruct (coll_find_one (st_db w) c (id_filter o)) as [d|]; [|done].
  by destruct (truthy_doc d).
Qed.

(** X2: on a permitted collection, with a valid identifier whose document
    the store finds (and which is not empty), [get_detail] returns that
    document passed once through the bundler resolved for the collection,
    JSON-encoded, and leaves the response status alone. *)
Theorem get_detail_returns_bundled_document self c pk (o : oid) (d : document) w :
  permitted self c →
  ObjectId pk = Some o →
  coll_find_one (st_db w) c (id_filter o) = Some d →
  d ≠ ∅ →
  get_detail self c pk w
  = (Return (Formatted jsonify (VDict (get_bundler self c d))), w).
Proof. apply get_detail_found. Qed.

(** X3: for a collection without a bundler method, [get_detail] returns
    the stored document unchanged. *)
Theorem get_detail_without_hook_is_raw self c pk (o : oid) (d : document) w :
  permitted self c →
  ObjectId pk = Some o →
  coll_find_one (st_db w) c (id_filter o) = Some d →
  d ≠ ∅ →
  bundlers self !! ("build_" +:+ c +:+ "_bundle") = None →
  get_detail self c pk w = (Return (Formatted jsonify (VDict d)), w).
Proof.
  intros Hp Ho Hf Hd Hb. rewrite (get_detail_found self c pk o d w Hp Ho Hf Hd).
  unfold get_bundler. by rewrite Hb.
Qed.

End GatewayExtras.

Lemma append_inj_l (p s t : string) : p +:+ s = p +:+ t → s = t.
Proof.
  induction p as [|a p IH]; [done|].
  rewrite !append_cons. intros Heq. injection Heq as Heq. by apply IH.
Qed.

Lemma append_length (s t : string) :
  String.length (s +:+ t) = String.length s + String.length t.
Proof.
  induction s as [|a s IH]; [done|]. rewrite append_cons. simpl. by rewrite IH.
Qed.

Lemma append_inj_r (s t q : string) : s +:+ q = t +:+ q → s = t.
Proof.
  intros Heq.
  assert (String.length s = String.length t) as Hlen.
  { apply (f_equal String.length) in Heq.
    rewrite !append_length in Heq. lia. }
  revert t Heq Hlen. induction s as [|a s IH]; intros [|b t] Heq Hlen;
    try done.
  rewrite !append_cons in Heq. injection Heq as -> Heq.
  f_equal. apply IH; [done|]. simpl in Hlen. lia.
Qed.

Section BundlerExtras.
Context {db : Type} `{!Store db} `{!Bson}.
Implicit Types (self : @Kule db) (w : @state db) (c pk : string).

(** X4: a bundler method is resolved by the collection's name and serves
    that collection only.  On an instance whose one bundler method is
    [build_<c>_bundle], documents of [c] go through it and documents of
    every other collection go through the identity. *)
Theorem bundler_is_per_collection (cols : option (list string))
    (vs : gmap string (gmap string string → @M db body))
    (f : document → document) (c c' : string) :
  let self := MkKule cols {["build_" +:+ c +:+ "_bundle" := f]} vs in
  get_bundler self c = f
  ∧ (if decide (c' = c) then get_bundler self c' = f
     else get_bundler self c' = build_bundle).
Proof.
  intros self. unfold get_bundler, self. simpl. split.
  - by rewrite lookup_singleton_eq.
  - case_decide as Hc; [subst; by rewrite lookup_singleton_eq|].
    rewrite lookup_singleton_ne; [done|].
    intros Heq. apply append_inj_l, append_inj_r in Heq. by subst.
Qed.

End BundlerExtras.

Section WriteExtras.
Context {db : Type} `{!Store db} `{!Bson}.
Implicit Types (self : @Kule db) (w : @state db) (c pk : string).

(** X5: on a permitted collection, [post_list] inserts every JSON object
    it is given, whatever the number of its fields: the payload reaches
    the store as it is, the status is 201 and the body is
    [{"_id": <what insert returned>}].  The "bad request" branch is never
    taken. *)
Theorem post_list_always_creates self c (j : document) w :
  permitted self c →
  req_json (st_request w) = Some j →
  (post_list self c w).1
    = Return (Formatted jsonify (VDict {["_id" := (coll_insert (st_db w) c j).1]}))
  ∧ st_db (post_list self c w).2 = (coll_insert (st_db w) c j).2
  ∧ status (st_response (post_list self c w).2) = 201%Z.
Proof. intros Hp Hj. by rewrite (post_list_creates self c j w Hp Hj). Qed.

(** X6: a create request without a JSON body makes [verify] fail on
    [None]: [post_list] raises [AttributeError], nothing is inserted, the
    status is not set, and the request ends as a 500. *)
Theorem post_list_without_body_raises self c w :
  permitted self c →
  req_json (st_request w) = None →
  post_list self c w = (Uncaught AttributeError, w)
  ∧ bottle_cast (Uncaught AttributeError) w
    = (500%Z, error_envelope 500 "Internal Server Error").
Proof.
  intros Hp Hj. split; [|apply cast_uncaught].
  unfold post_list, bind. rewrite (get_collection_permitted _ _ _ Hp). simpl.
  by rewrite Hj.
Qed.

(** X7: whatever identifier the client puts in an update payload,
    [put_detail] replaces the document by the payload without it: the
    store receives the other fields only, the body returned holds the
    other fields only, and the value sent plays no part in the result. *)
Theorem put_detail_ignores_client_id self c pk (o : oid) (j : document) (v : value) w :
  permitted self c →
  ObjectId pk = Some o →
  req_json (st_request w) = Some (<["_id" := v]> j) →
  (put_detail self c pk w).1 = Return (Formatted jsonify (VDict (delete "_id" j)))
  ∧ st_db (put_detail self c pk w).2
    = coll_update (st_db w) c (id_filter o) (delete "_id" j)
  ∧ (delete "_id" j : document) !! "_id" = None.
Proof.
  intros Hp Ho Hj. rewrite (put_detail_ok self c pk o _ w Hp Ho Hj). simpl.
  rewrite delete_insert_eq. repeat split. apply lookup_delete_eq.
Qed.

(** X8: an update request without a JSON body fails at the membership
    test on [None]: [put_detail] raises [TypeError] before the store is
    called and before the status is set. *)
Theorem put_detail_without_body_raises self c pk w :
  permitted self c →
  req_json (st_request w) = None →
  put_detail self c pk w = (Uncaught TypeError, w).
Proof.
  intros Hp Hj. unfold put_detail, bind.
  rewrite (get_collection_permitted _ _ _ Hp). simpl. by rewrite Hj.
Qed.

(** X9: on a permitted collection and a valid identifier, [delete_detail]
    asks the store to remove by that identifier and answers 204 with no
    body, whether or not a document was there. *)
Theorem delete_detail_always_no_content self c pk (o : oid) w :
  permitted self c →
  ObjectId pk = Some o →
  (delete_detail self c pk w).1 = Return NoBody
  ∧ st_db (delete_detail self c pk w).2 = coll_remove (st_db w) c (id_filter o)
  ∧ status (st_response (delete_detail self c pk w).2) = 204%Z.
Proof.
  intros Hp Ho. unfold delete_detail, bind.
  by rewrite (get_collection_permitted _ _ _ Hp), Ho.
Qed.

(** X10: when the document is there after the update, [patch_detail]
    returns it as [get_detail] would, read back from the updated store
    and bundled, with status 202; the update it applied is
    [{"$set": payload}]. *)
Theorem patch_detail_returns_refreshed_document self c pk (o : oid) (d : document) w :
  permitted self c →
  ObjectId pk = Some o →
  coll_find_one
    (coll_update (st_db w) c (id_filter o) {["$set" := json_value (req_json (st_request w))]})
    c (id_filter o) = Some d →
  d ≠ ∅ →
  (patch_detail self c pk w).1 = Return (Formatted jsonify (VDict (get_bundler self c d)))
  ∧ st_db (patch_detail self c pk w).2
    = coll_update (st_db w) c (id_filter o)
        {["$set" := json_value (req_json (st_request w))]}
  ∧ status (st_response (patch_detail self c pk w).2) = 202%Z.
Proof.
  intros Hp Ho Hf Hd. rewrite (patch_detail_unfold self c pk o w Hp Ho).
  by rewrite (get_detail_found self c pk o d) by done.
Qed.

End WriteExtras.

Lemma take_length_le {A} (n : nat) (l : list A) : length (take n l) ≤ length l.
Proof. rewrite length_take. lia. Qed.

Lemma apply_limit_length_le {A} (n : Z) (l : list A) :
  length (apply_limit n l) ≤ length l.
Proof. unfold apply_limit. destruct (n =? 0)%Z; [done|apply take_length_le]. Qed.

Lemma envelope_objects_of (f : formatter) (meta : document) (objects : list document) :
  envelope_objects (Formatted f (envelope meta objects)) = VDict <$> objects.
Proof.
  unfold envelope_objects, envelope.
  rewrite lookup_insert_ne by done. by rewrite lookup_singleton_eq.
Qed.

Section ListExtras.
Context {db : Type} `{!Store db} `{!Bson}.
Implicit Types (self : @Kule db) (w : @state db) (c pk : string).

(** X11: the objects of a page are documents that match the filter, in
    the store's order, each passed through the collection's bundler: the
    matching documents after the offset, cut at the limit.  There are
    never more of them than [meta.total_count]. *)
Theorem get_list_objects_are_bundled_matches self c (format : string) (q : document)
    (fields : option value) w :
  permitted self c →
  get_query w = (Return q, w) →
  get_fields w = (Return fields, w) →
  let limit := int_or_default (query_attr (st_request w) "limit") 20 in
  let offset := int_or_default (query_attr (st_request w) "offset") 0 in
  let matching := coll_find (st_db w) c q fields in
  ∃ b w',
    get_list self c format w = (Return b, w')
    ∧ envelope_objects b
      = VDict <$> (get_bundler self c <$> apply_limit limit (drop (Z.to_nat offset) matching))
    ∧ envelope_meta b "total_count" = Some (VInt (Z.of_nat (length matching)))
    ∧ length (envelope_objects b) ≤ length matching.
Proof.
  intros Hp Hq Hf limit offset matching.
  eexists _, _. split; [by apply get_list_ok|].
  rewrite envelope_objects_of, envelope_meta_lookup, !length_fmap.
  repeat split.
  etrans; [apply apply_limit_length_le|]. rewrite length_drop.
  unfold matching. lia.
Qed.

(** X12: [get_list] never writes to the store, to the request or to the
    response status, on any input: whether it is refused by the
    allow-list, fails on a parameter or returns a page. *)
Theorem get_list_leaves_store_and_status self c (format : string) w :
  st_db (get_list self c format w).2 = st_db w
  ∧ st_request (get_list self c format w).2 = st_request w
  ∧ status (st_response (get_list self c format w).2) = status (st_response w).
Proof.
  unfold get_list, bind.
  destruct (get_collection_cases self c w) as [-> | ->]; [|done]. simpl.
  pose proof (get_query_state w) as Hq.
  destruct (get_query w) as [[q|code text|e] wq]; simpl in Hq; subst wq; try done.
  pose proof (get_fields_state w) as Hf.
  destruct (get_fields w) as [[fs|code text|e] wf]; simpl in Hf; subst wf; try done.
  simpl. unfold formatters_getitem, content_types_getitem. simpl.
  destruct (dd_getitem (st_formatters w) format) as [fm d1]. simpl.
  by destruct (dd_getitem (st_content_types w) format) as [ct d2].
Qed.

(** X13: format negotiation end to end.  In a process whose registries
    have served any earlier lookups, a page asked with the [.csv] suffix
    is encoded by the CSV encoder and labelled [text/csv]; with any other
    suffix, or none, it is encoded as JSON and labelled
    [application/json]. *)
Theorem get_list_format_negotiation self c (format : string) (q : document)
    (fields : option value) (h1 h2 : list string) w :
  permitted self c →
  get_query w = (Return q, w) →
  get_fields w = (Return fields, w) →
  st_formatters w = dd_lookups formatters h1 →
  st_content_types w = dd_lookups content_types h2 →
  ∃ v w',
    get_list self c format w
    = (Return (Formatted (if decide (format = ".csv") then csvify else jsonify) v), w')
    ∧ headers (st_response w') !! "Content-Type"
      = Some (if decide (format = ".csv") then "text/csv" else "application/json").
Proof.
  intros Hp Hq Hf H1 H2.
  rewrite (get_list_ok self c format q fields w Hp Hq Hf).
  rewrite H1, H2, !dd_lookups_stable, formatters_value, content_types_value.
  eexists _, _. split; [done|]. simpl. by rewrite lookup_insert_eq.
Qed.

(** X14: a page asked with a suffix leaves that suffix as a key in both
    registries, bound to what was resolved for it: every distinct suffix
    a client sends stays in the process. *)
Theorem get_list_remembers_the_token self c (format : string) (q : document)
    (fields : option value) w :
  permitted self c →
  get_query w = (Return q, w) →
  get_fields w = (Return fields, w) →
  dd_items (st_formatters (get_list self c format w).2) !! format
    = Some (dd_value (st_formatters w) format)
  ∧ dd_items (st_content_types (get_list self c format w).2) !! format
    = Some (dd_value (st_content_types w) format).
Proof.
  intros Hp Hq Hf. rewrite (get_list_ok self c format q fields w Hp Hq Hf). simpl.
  unfold dd_getitem, dd_value. split.
  - destruct (dd_items (st_formatters w) !! format) eqn:E; simpl; [done|].
    by rewrite lookup_insert_eq.
  - destruct (dd_items (st_content_types w) !! format) eqn:E; simpl; [done|].
    by rewrite lookup_insert_eq.
Qed.

(** X15: without a [query] parameter, or with an empty one, the filter is
    the empty document and the parser is not called, whatever the other
    parameters are; and without a [fields] parameter, or with an empty
    one, there is no projection, whatever the other parameters are.
    Neither can fail then. *)
Theorem absent_parameters_need_no_parsing w :
  (query_attr (st_request w) "query" = "" → get_query w = (Return ∅, w))
  ∧ (query_attr (st_request w) "fields" = "" → get_fields w = (Return None, w)).
Proof.
  unfold query_attr, get_query, get_fields, bind. simpl. split.
  - intros Hq. destruct (req_GET (st_request w) !! "query") as [q|]; simpl in *; by subst.
  - intros Hf. destruct (req_GET (st_request w) !! "fields") as [f|]; simpl in *; by subst.
Qed.

End ListExtras.

(** ** The hook, the error handlers and whole requests *)

Section HookExtras.
Context {db : Type} `{!Store db} `{!Bson}.
Implicit Types (self : @Kule db) (w : @state db) (c pk : string).

(** X16: after the hook the response carries the three CORS headers with
    their fixed values and a content type: the one it had when that was
    not empty, [application/json] otherwise.  Every other header, the
    status, the store, the request and the registries are as before. *)
Theorem after_request_sets_cors_headers w :
  let w' := (after_request w).2 in
  (after_request w).1 = Return tt
  ∧ headers (st_response w') !! "Access-Control-Allow-Origin" = Some "*"
  ∧ headers (st_response w') !! "Access-Control-Allow-Methods" = Some "GET, POST, OPTIONS"
  ∧ headers (st_response w') !! "Access-Control-Allow-Headers"
    = Some "Origin, Accept, Content-Type, X-Requested-With, X-CSRF-Token"
  ∧ response_content_type (st_response w')
    = (if decide (response_content_type (st_response w) = "") then "application/json"
       else response_content_type (st_response w))
  ∧ (∀ k : string,
       k ∉ ["Content-Type"; "Access-Control-Allow-Origin";
            "Access-Control-Allow-Methods"; "Access-Control-Allow-Headers"] →
       headers (st_response w') !! k = headers (st_response w) !! k)
  ∧ status (st_response w') = status (st_response w)
  ∧ st_db w' = st_db w
  ∧ st_request w' = st_request w
  ∧ st_formatters w' = st_formatters w
  ∧ st_content_types w' = st_content_types w.
Proof.
  simpl. split; [done|].
  split; [by rewrite lookup_insert_ne, lookup_insert_ne, lookup_insert_eq|].
  split; [by rewrite lookup_insert_ne, lookup_insert_eq|].
  split; [by rewrite lookup_insert_eq|].
  split.
  { unfold response_content_type at 1. simpl.
    rewrite !lookup_insert_ne by done. rewrite lookup_insert_eq. simpl.
    unfold truthy_str. case_decide as He.
    - by rewrite bool_decide_eq_true_2.
    - by rewrite bool_decide_eq_false_2. }
  split; [|done].
  intros k Hk. rewrite !not_elem_of_cons in Hk. destruct Hk as (H1 & H2 & H3 & H4 & _).
  by rewrite !lookup_insert_ne.
Qed.

(** X17: the hook does not undo the format negotiation.  When it runs
    after [get_list] has returned a page, the content type is still the
    one resolved for the suffix, [text/csv] for [.csv], and the page is
    what the route returns. *)
Theorem hook_keeps_negotiated_content_type self c (format : string) (q : document)
    (fields : option value) (h1 h2 : list string) w :
  permitted self c →
  get_query w = (Return q, w) →
  get_fields w = (Return fields, w) →
  st_formatters w = dd_lookups formatters h1 →
  st_content_types w = dd_lookups content_types h2 →
  (with_after_request (get_list self c format) w).1 = (get_list self c format w).1
  ∧ response_content_type (st_response (with_after_request (get_list self c format) w).2)
    = (if decide (format = ".csv") then "text/csv" else "application/json").
Proof.
  intros Hp Hq Hf H1 H2. unfold with_after_request, bind.
  rewrite (get_list_ok self c format q fields w Hp Hq Hf).
  rewrite H2, !dd_lookups_stable, content_types_value.
  simpl. split; [done|].
  unfold response_content_type. simpl.
  rewrite !lookup_insert_ne by done. rewrite !lookup_insert_eq. simpl.
  by case_decide.
Qed.

(** X19: a POST to a collection route never reaches the body of
    [post_list].  The route hands the view the [format] argument of the
    rule, which [post_list] does not take: the call raises [TypeError],
    the answer is 500 and the store is not touched, for every collection,
    payload and allow-list. *)
Theorem post_to_collection_route_fails self c (f : string) (r : request) w :
  views self = ∅ →
  srv_status (serve self "POST" (PList c f) r w) = 500%Z
  ∧ srv_body (serve self "POST" (PList c f) r w)
    = error_envelope 500 "Internal Server Error"
  ∧ st_db (srv_state (serve self "POST" (PList c f) r w)) = st_db w.
Proof.
  intros Hv.
  rewrite (serve_of_uncaught self "POST" (PList c f) r w TypeError (bind_request r w));
    [done|].
  unfold bottle_handle. by rewrite dispatch_views_plain.
Qed.

(** X20: a GET for a document that the store finds is answered 200 with
    the bundled document.  The view changes nothing, and the hook then
    runs on the response as it was bound: the request leaves the CORS
    headers and the content type [application/json] on it, and the
    store, the request and the registries as they were. *)
Theorem get_document_over_http self c pk (o : oid) (d : document) (r : request) w :
  views self = ∅ →
  permitted self c →
  ObjectId pk = Some o →
  coll_find_one (st_db w) c (id_filter o) = Some d →
  d ≠ ∅ →
  serve self "GET" (PDetail c pk) r w
  = Served 200 (Formatted jsonify (VDict (get_bundler self c d)))
      (after_request (bind_request r w)).2
  ∧ response_content_type (st_response (srv_state (serve self "GET" (PDetail c pk) r w)))
    = "application/json"
  ∧ headers (st_response (srv_state (serve self "GET" (PDetail c pk) r w)))
      !! "Access-Control-Allow-Origin" = Some "*"
  ∧ st_db (srv_state (serve self "GET" (PDetail c pk) r w)) = st_db w.
Proof.
  intros Hv Hp Ho Hf Hd.
  rewrite (serve_of_return self "GET" (PDetail c pk) r w
             (Formatted jsonify (VDict (get_bundler self c d))) (bind_request r w)).
  - done.
  - rewrite handle_get_detail by done.
    by rewrite (get_detail_found self c pk o d) by done.
Qed.

(** X21: a GET for a document that the store does not find is answered
    404 with the error envelope, and leaves the process as it was. *)
Theorem get_missing_document_over_http self c pk (o : oid) (r : request) w :
  views self = ∅ →
  permitted self c →
  ObjectId pk = Some o →
  coll_find_one (st_db w) c (id_filter o) = None →
  serve self "GET" (PDetail c pk) r w
  = Served 404 (error_envelope 404 abort_text) (bind_request r w).
Proof.
  intros Hv Hp Ho Hf.
  rewrite (serve_of_error self "GET" (PDetail c pk) r w 404 abort_text
             (bind_request r w)); [done|].
  rewrite handle_get_detail by done.
  by rewrite (get_detail_missing self c pk o) by done.
Qed.

(** X22: an allow-list that is empty is no allow-list.  An instance made
    with [collections=[]] runs every gateway operation and builds its
    routes exactly as the instance made with [collections=None]. *)
Theorem empty_allow_list_is_no_allow_list
    (bs : gmap string (document → document))
    (vs : gmap string (gmap string string → @M db body)) :
  let s1 := MkKule (Some []) bs vs in
  let s2 := MkKule None bs vs in
  (∀ op, op ∈ detail_ops → op s1 = op s2)
  ∧ post_list s1 = post_list s2
  ∧ get_list s1 = get_list s2
  ∧ dispatch_views s1 = dispatch_views s2.
Proof.
  intros s1 s2. repeat split.
  intros op Hop. unfold detail_ops in Hop. rewrite !elem_of_cons, elem_of_nil in Hop.
  by destruct Hop as [->|[->|[->|[->|[]]]]].
Qed.

End HookExtras.

(** X18: an error with a text of its own is rendered with that text, for
    each of the six codes that have a handler; the message registered with
    the handler is not used.  [abort] always gives its text, so the
    errors the gateway raises carry bottle's text and never
    "Document Not Found." or "Forbidden.". *)
Theorem error_text_wins_over_handler_message (code : Z) (text : string) :
  code ∈ [500; 404; 501; 405; 403; 400]%Z →
  text ≠ "" →
  render_error code text = error_envelope code text
  ∧ render_error code abort_text = error_envelope code abort_text.
Proof.
  intros Hc Ht. unfold render_error.
  destruct (error_handler_registered code Hc) as [m ->].
  by rewrite !error_with_text.
Qed.

(** ** Views of a subclass in the route table *)

Section RouteExtras.
Context {db : Type} `{!Store db} `{!Bson}.
Implicit Types (self : @Kule db) (rt : @router db) (ts : @targets db) (c : string).

Lemma targets_get_set ts (m m' : string) (v : view) :
  targets_get (targets_set ts m v) m'
  = if decide (m' = m) then Some v else targets_get ts m'.
Proof.
  induction ts as [|[m0 v0] ts IH]; simpl.
  - repeat case_bool_decide; repeat case_decide; by simplify_eq.
  - repeat case_bool_decide; simpl; rewrite ?IH;
      repeat case_bool_decide; repeat case_decide; by simplify_eq.
Qed.

Lemma router_targets_add rt (r r' : rule) (m : string) (v : view) :
  router_targets (router_add rt r m v) r'
  = if decide (r' = r) then Some (targets_set (default [] (router_targets rt r)) m v)
    else router_targets rt r'.
Proof.
  induction rt as [|[r0 ts0] rt IH]; simpl.
  - repeat case_bool_decide; repeat case_decide; by simplify_eq.
  - repeat case_bool_decide; simpl; rewrite ?IH;
      repeat case_bool_decide; repeat case_decide; by simplify_eq.
Qed.

Lemma decide_and_true_r (P Q : Prop) `{!Decision P, !Decision Q} {A} (a b : A) :
  Q → (if decide (P ∧ Q) then a else b) = (if decide P then a else b).
Proof.
  intros HQ. destruct (decide P) as [HP|HP].
  - by rewrite decide_True.
  - rewrite decide_False; [done|]. by intros [? _].
Qed.

Lemma route_of_add rt (r r' : rule) (m m' : string) (v : view) :
  route_of (router_add rt r m v) r' m'
  = if decide (r' = r ∧ m' = m) then Some v else route_of rt r' m'.
Proof.
  unfold route_of. rewrite router_targets_add.
  destruct (decide (r' = r)) as [->|Hr].
  - rewrite targets_get_set.
    destruct (decide (m' = m)) as [->|Hm].
    + by rewrite decide_True.
    + rewrite decide_False by (by intros [_ ?]).
      by destruct (router_targets rt r).
  - by rewrite decide_False by (by intros [? _]).
Qed.

(** The per-collection loop, seen from one list rule and one method. *)
Lemma route_of_dispatch_collection self (meth : string) rt c c' (M : string) :
  route_of (dispatch_collection self meth rt c') (RCollectionList c) M
  = if decide (c' = c ∧ M = str_upper meth)
    then from_option Some (route_of rt (RCollectionList c) M)
           (getattr_view self (meth +:+ "_" +:+ c +:+ "_list"))
    else route_of rt (RCollectionList c) M.
Proof.
  unfold dispatch_collection, app_route.
  assert (∀ rt0, route_of
            match getattr_view self (meth +:+ "_" +:+ c' +:+ "_detail") with
            | Some v => router_add rt0 (RCollectionDetail c') (str_upper meth) v
            | None => rt0
            end (RCollectionList c) M = route_of rt0 (RCollectionList c) M) as ->.
  { intros rt0. destruct (getattr_view self (meth +:+ "_" +:+ c' +:+ "_detail")); [|done].
    rewrite route_of_add. by rewrite decide_False by (by intros [? _]). }
  destruct (decide (c' = c ∧ M = str_upper meth)) as [[-> ->]|Hne].
  - destruct (getattr_view self (meth +:+ "_" +:+ c +:+ "_list")); simpl; [|done].
    rewrite route_of_add. by rewrite decide_True.
  - destruct (getattr_view self (meth +:+ "_" +:+ c' +:+ "_list")); [|done].
    rewrite route_of_add. rewrite decide_False; [done|].
    intros [Hr ->]. injection Hr as ->. by apply Hne.
Qed.

Lemma route_of_dispatch_collections self (meth : string) rt (l : list string) c (M : string) :
  route_of (foldl (dispatch_collection self meth) rt l) (RCollectionList c) M
  = if decide (c ∈ l ∧ M = str_upper meth)
    then from_option Some (route_of rt (RCollectionList c) M)
           (getattr_view self (meth +:+ "_" +:+ c +:+ "_list"))
    else route_of rt (RCollectionList c) M.
Proof.
  revert rt. induction l as [|c' l IH]; intros rt; simpl foldl.
  - case_decide as Hin; [|done]. destruct Hin as [Hin _]. by apply elem_of_nil in Hin.
  - rewrite IH, route_of_dispatch_collection.
    destruct (decide (M = str_upper meth)) as [->|HM].
    2: { rewrite !decide_False; [done|by intros [_ ?]..]. }
    rewrite !decide_and_true_r by done.
    destruct (decide (c ∈ l)) as [Hin|Hin]; destruct (decide (c' = c)) as [->|Hc].
    + rewrite decide_True by apply list_elem_of_here.
      by destruct (getattr_view self (meth +:+ "_" +:+ c +:+ "_list")).
    + by rewrite decide_True by (by apply list_elem_of_further).
    + by rewrite decide_True by apply list_elem_of_here.
    + rewrite decide_False; [done|].
      intros Hin'. apply elem_of_cons in Hin' as [->|Hin']; done.
Qed.

Lemma route_of_dispatch_method self (meth : string) rt c (M : string) :
  route_of (dispatch_method self rt meth) (RCollectionList c) M
  = if decide (c ∈ default [] (collections self) ∧ M = str_upper meth)
    then from_option Some (route_of rt (RCollectionList c) M)
           (getattr_view self (meth +:+ "_" +:+ c +:+ "_list"))
    else route_of rt (RCollectionList c) M.
Proof.
  unfold dispatch_method, app_route.
  rewrite !route_of_add. rewrite !decide_False by (by intros [? _]).
  apply route_of_dispatch_collections.
Qed.

(** What the finished table binds to the rule ['/<c>'], by method. *)
Lemma route_of_dispatch_views self c (meth : string) :
  meth ∈ ["get"; "post"; "options"] →
  c ∈ default [] (collections self) →
  route_of (dispatch_views self) (RCollectionList c) (str_upper meth)
  = getattr_view self (meth +:+ "_" +:+ c +:+ "_list").
Proof.
  intros Hm Hc. unfold dispatch_views. simpl foldl.
  rewrite !route_of_dispatch_method.
  rewrite !elem_of_cons, elem_of_nil in Hm.
  destruct Hm as [->|[->|[->|[]]]].
  - rewrite (decide_False (P := _ ∧ str_upper "get" = str_upper "options"))
      by (by intros [_ ?]).
    rewrite (decide_False (P := _ ∧ str_upper "get" = str_upper "post"))
      by (by intros [_ ?]).
    rewrite decide_True by done.
    by destruct (getattr_view self _).
  - rewrite (decide_False (P := _ ∧ str_upper "post" = str_upper "options"))
      by (by intros [_ ?]).
    rewrite (decide_False (P := _ ∧ str_upper "post" = str_upper "get"))
      by (by intros [_ ?]).
    rewrite decide_True by done.
    by destruct (getattr_view self _).
  - rewrite (decide_False (P := _ ∧ str_upper "options" = str_upper "post"))
      by (by intros [_ ?]).
    rewrite (decide_False (P := _ ∧ str_upper "options" = str_upper "get"))
      by (by intros [_ ?]).
    rewrite decide_True by done.
    by destruct (getattr_view self _).
Qed.

Lemma route_of_dispatch_views_any self c :
  route_of (dispatch_views self) (RCollectionList c) "ANY" = None.
Proof.
  unfold dispatch_views. simpl foldl. rewrite !route_of_dispatch_method.
  by rewrite !decide_False by (by intros [_ ?]).
Qed.

(** The static rules are looked up by the path itself. *)
Lemma first_match_static rt c :
  first_match (List.filter (λ e, is_static e.1) rt) (PList c "")
  = (λ ts, (ts, ∅)) <$> router_targets rt (RCollectionList c).
Proof.
  induction rt as [|[r ts] rt IH]; simpl; [done|].
  destruct r as [c'| | |]; simpl; rewrite ?IH; try done.
  destruct (decide (c' = c)) as [->|Hc].
  - rewrite bool_decide_eq_true_2 by done. by rewrite bool_decide_eq_true_2.
  - rewrite bool_decide_eq_false_2 by (by intros [? _]).
    rewrite bool_decide_eq_false_2; [done|]. intros Heq. by injection Heq.
Qed.

(** X23: a view a subclass defines for the list of a collection of the
    allow-list, under the name [<method>_<collection>_list], is what a
    request of that method to ['/<collection>'] runs, with no arguments,
    instead of the generic view. *)
Theorem collection_view_takes_precedence self c (meth : string)
    (f : gmap string string → @M db body) :
  meth ∈ ["get"; "post"; "options"] →
  c ∈ default [] (collections self) →
  views self !! (meth +:+ "_" +:+ c +:+ "_list") = Some f →
  bottle_handle self (str_upper meth) (PList c "") = f ∅.
Proof.
  intros Hm Hc Hf.
  pose proof (route_of_dispatch_views self c meth Hm Hc) as Hr.
  unfold getattr_view in Hr. rewrite Hf in Hr.
  unfold bottle_handle, router_match. rewrite first_match_static.
  unfold route_of in Hr.
  destruct (router_targets (dispatch_views self) (RCollectionList c)) as [ts|];
    [|done].
  simpl. by rewrite Hr.
Qed.

(** X24: a subclass view for one method of ['/<collection>'] takes the
    path away from the generic routes.  When a collection of the
    allow-list has a list view for GET and none for POST, a POST to
    ['/<collection>'] finds the path, not the method: it is answered 405
    and [post_list] is not run. *)
Theorem collection_view_shadows_generic_route self c
    (f : gmap string string → @M db body) :
  c ∈ default [] (collections self) →
  views self !! ("get_" +:+ c +:+ "_list") = Some f →
  views self !! ("post_" +:+ c +:+ "_list") = None →
  bottle_handle self "POST" (PList c "") = λ s, (HTTPError 405 "Method not allowed.", s).
Proof.
  intros Hc Hget Hpost.
  pose proof (route_of_dispatch_views self c "get" ltac:(in_list) Hc) as Hg.
  pose proof (route_of_dispatch_views self c "post" ltac:(in_list) Hc) as Hp.
  pose proof (route_of_dispatch_views_any self c) as Ha.
  change (str_upper "get") with "GET" in Hg.
  change (str_upper "post") with "POST" in Hp.
  change ("get" +:+ "_" +:+ c +:+ "_list") with ("get_" +:+ c +:+ "_list") in Hg.
  change ("post" +:+ "_" +:+ c +:+ "_list") with ("post_" +:+ c +:+ "_list") in Hp.
  unfold getattr_view in Hg, Hp. rewrite Hget in Hg. rewrite Hpost in Hp.
  change ("post_" +:+ c +:+ "_list") with ("post" +:+ "_" +:+ c +:+ "_list") in Hp.
  rewrite (Kule_views_no_magic "post" c "_list") in Hp by in_list.
  unfold bottle_handle, router_match. rewrite first_match_static.
  unfold route_of in Hg, Hp, Ha.
  destruct (router_targets (dispatch_views self) (RCollectionList c)) as [ts|];
    [|done].
  simpl. by rewrite Hp, Ha.
Qed.

End RouteExtras.

Section CorsExtras.
Context {db : Type} `{!Store db} `{!Bson}.
Implicit Types (self : @Kule db) (w : @state db).

(** X25: the methods the hook advertises are the methods that have
    routes.  On an instance without views of its own, every rule of the
    route table is bound for exactly the methods listed, in that order,
    in [Access-Control-Allow-Methods]. *)
Theorem advertised_methods_are_the_routed_ones self (r : rule) (ts : targets) w :
  views self = ∅ →
  (r, ts) ∈ dispatch_views self →
  headers (st_response (after_request w).2) !! "Access-Control-Allow-Methods"
  = Some (String.concat ", " ts.*1).
Proof.
  intros Hv Hin. rewrite dispatch_views_plain in Hin by done.
  unfold Kule_router in Hin. rewrite !elem_of_cons, elem_of_nil in Hin.
  simpl. rewrite lookup_insert_ne by done. rewrite lookup_insert_eq.
  by destruct Hin as [Heq|[Heq|[]]]; injection Heq as -> ->.
Qed.

End CorsExtras.

(** ** The further properties on concrete requests *)

Lemma carol_not_empty : carol ≠ ∅.
Proof.
  intros Heq. apply (f_equal (λ m : document, m !! "name")) in Heq. discriminate Heq.
Defined.

Lemma get_detail_returns_bundled_document_witness :
  let w := bind_request (query_request ∅) (initial_state mem_carol) in
  get_detail bundling_kule "users" hexid w
  = (Return (Formatted jsonify (VDict (build_users_bundle carol))), w).
Proof.
  intros w.
  refine (get_detail_returns_bundled_document bundling_kule "users" hexid (Oid hexid)
            carol w _ _ _ _).
  - exact I.
  - reflexivity.
  - reflexivity.
  - exact carol_not_empty.
Defined.

Lemma get_detail_without_hook_is_raw_witness :
  let w := bind_request (query_request ∅) (initial_state mem_carol) in
  get_detail users_kule "users" hexid w = (Return (Formatted jsonify (VDict carol)), w).
Proof.
  intros w.
  refine (get_detail_without_hook_is_raw users_kule "users" hexid (Oid hexid)
            carol w _ _ _ _ _).
  - apply list_elem_of_here.
  - reflexivity.
  - reflexivity.
  - exact carol_not_empty.
  - reflexivity.
Defined.

Lemma post_list_always_creates_witness :
  let j : document := {["name" := VStr "dave"]} in
  let w := bind_request (json_request j) (initial_state mem_carol) in
  (post_list users_kule "users" w).1
    = Return (Formatted jsonify (VDict {["_id" := (coll_insert mem_carol "users" j).1]}))
  ∧ st_db (post_list users_kule "users" w).2 = (coll_insert mem_carol "users" j).2
  ∧ status (st_response (post_list users_kule "users" w).2) = 201%Z.
Proof.
  intros j w.
  refine (post_list_always_creates users_kule "users" j w _ _).
  - apply list_elem_of_here.
  - reflexivity.
Defined.

Lemma post_list_without_body_raises_witness :
  let w := bind_request (query_request ∅) (initial_state mem_carol) in
  post_list users_kule "users" w = (Uncaught AttributeError, w)
  ∧ bottle_cast (Uncaught AttributeError) w
    = (500%Z, error_envelope 500 "Internal Server Error").
Proof.
  intros w.
  refine (post_list_without_body_raises users_kule "users" w _ _).
  - apply list_elem_of_here.
  - reflexivity.
Defined.

Lemma put_detail_ignores_client_id_witness :
  let j : document := {["name" := VStr "caroline"]} in
  let w := bind_request (json_request (<["_id" := VStr "someone-else"]> j))
             (initial_state mem_carol) in
  (put_detail users_kule "users" hexid w).1
    = Return (Formatted jsonify (VDict (delete "_id" j)))
  ∧ st_db (put_detail users_kule "users" hexid w).2
    = coll_update mem_carol "users" (id_filter (Oid hexid)) (delete "_id" j)
  ∧ (delete "_id" j : document) !! "_id" = None.
Proof.
  intros j w.
  refine (put_detail_ignores_client_id users_kule "users" hexid (Oid hexid) j
            (VStr "someone-else") w _ _ _).
  - apply list_elem_of_here.
  - reflexivity.
  - reflexivity.
Defined.

Lemma put_detail_without_body_raises_witness :
  let w := bind_request (query_request ∅) (initial_state mem_carol) in
  put_detail users_kule "users" hexid w = (Uncaught TypeError, w).
Proof.
  intros w.
  refine (put_detail_without_body_raises users_kule "users" hexid w _ _).
  - apply list_elem_of_here.
  - reflexivity.
Defined.

Lemma delete_detail_always_no_content_witness :
  let w := bind_request (query_request ∅) (initial_state mem_empty) in
  (delete_detail users_kule "users" hexid w).1 = Return NoBody
  ∧ st_db (delete_detail users_kule "users" hexid w).2
    = coll_remove mem_empty "users" (id_filter (Oid hexid))
  ∧ status (st_response (delete_detail users_kule "users" hexid w).2) = 204%Z.
Proof.
  intros w.
  refine (delete_detail_always_no_content users_kule "users" hexid (Oid hexid) w _ _).
  - apply list_elem_of_here.
  - reflexivity.
Defined.

Lemma patch_detail_returns_refreshed_document_witness :
  let j : document := {["name" := VStr "caroline"]} in
  let w := bind_request (json_request j) (initial_state mem_carol) in
  (patch_detail users_kule "users" hexid w).1
    = Return (Formatted jsonify
        (VDict (get_bundler (users_kule (db:=memdb)) "users"
                  (<["name" := VStr "caroline"]> carol))))
  ∧ st_db (patch_detail users_kule "users" hexid w).2
    = coll_update mem_carol "users" (id_filter (Oid hexid)) {["$set" := VDict j]}
  ∧ status (st_response (patch_detail users_kule "users" hexid w).2) = 202%Z.
Proof.
  intros j w.
  refine (patch_detail_returns_refreshed_document users_kule "users" hexid (Oid hexid)
            (<["name" := VStr "caroline"]> carol) w _ _ _ _).
  - apply list_elem_of_here.
  - reflexivity.
  - vm_compute. reflexivity.
  - intros Heq. apply (f_equal (λ m : document, m !! "name")) in Heq. discriminate Heq.
Defined.

Lemma get_list_objects_are_bundled_matches_witness :
  let w := bind_request (query_request {["limit" := "1"]}) (initial_state mem_two) in
  ∃ b w',
    get_list users_kule "users" "" w = (Return b, w')
    ∧ envelope_objects b
      = VDict <$> (get_bundler (users_kule (db:=memdb)) "users" <$> [alice])
    ∧ envelope_meta b "total_count" = Some (VInt 2)
    ∧ length (envelope_objects b) ≤ 2.
Proof.
  intros w.
  refine (get_list_objects_are_bundled_matches users_kule "users" "" ∅ None w _ _ _).
  - apply list_elem_of_here.
  - reflexivity.
  - reflexivity.
Defined.

Lemma get_list_format_negotiation_witness :
  let w := bind_request (query_request ∅) (initial_state mem_two) in
  ∃ v w',
    get_list users_kule "users" ".csv" w = (Return (Formatted csvify v), w')
    ∧ headers (st_response w') !! "Content-Type" = Some "text/csv".
Proof.
  intros w.
  refine (get_list_format_negotiation users_kule "users" ".csv" ∅ None [] [] w
            _ _ _ _ _).
  - apply list_elem_of_here.
  - reflexivity.
  - reflexivity.
  - reflexivity.
  - reflexivity.
Defined.

Lemma get_list_remembers_the_token_witness :
  let w := bind_request (query_request ∅) (initial_state mem_two) in
  dd_items (st_formatters (get_list users_kule "users" ".xyz" w).2) !! ".xyz"
    = Some jsonify
  ∧ dd_items (st_content_types (get_list users_kule "users" ".xyz" w).2) !! ".xyz"
    = Some "application/json".
Proof.
  intros w.
  refine (get_list_remembers_the_token users_kule "users" ".xyz" ∅ None w _ _ _).
  - apply list_elem_of_here.
  - reflexivity.
  - reflexivity.
Defined.

Lemma absent_parameters_need_no_parsing_witness :
  get_query (bind_request (query_request {["fields" := "[]"]}) (initial_state mem_two))
    = (Return ∅,
       bind_request (query_request {["fields" := "[]"]}) (initial_state mem_two))
  ∧ get_fields (bind_request (query_request {["query" := "{}"]}) (initial_state mem_two))
    = (Return None,
       bind_request (query_request {["query" := "{}"]}) (initial_state mem_two)).
Proof.
  split.
  - refine (proj1 (absent_parameters_need_no_parsing
                     (bind_request (query_request {["fields" := "[]"]})
                        (initial_state mem_two))) _).
    reflexivity.
  - refine (proj2 (absent_parameters_need_no_parsing
                     (bind_request (query_request {["query" := "{}"]})
                        (initial_state mem_two))) _).
    reflexivity.
Defined.

Lemma hook_keeps_negotiated_content_type_witness :
  let w := bind_request (query_request ∅) (initial_state mem_two) in
  (with_after_request (get_list users_kule "users" ".csv") w).1
    = (get_list users_kule "users" ".csv" w).1
  ∧ response_content_type
      (st_response (with_after_request (get_list users_kule "users" ".csv") w).2)
    = "text/csv".
Proof.
  intros w.
  refine (hook_keeps_negotiated_content_type users_kule "users" ".csv" ∅ None [] [] w
            _ _ _ _ _).
  - apply list_elem_of_here.
  - reflexivity.
  - reflexivity.
  - reflexivity.
  - reflexivity.
Defined.

Lemma error_text_wins_over_handler_message_witness :
  render_error 404 "gone" = error_envelope 404 "gone"
  ∧ render_error 404 abort_text = error_envelope 404 abort_text.
Proof.
  refine (error_text_wins_over_handler_message 404 "gone" _ _).
  - apply list_elem_of_further, list_elem_of_here.
  - discriminate.
Defined.

Lemma post_to_collection_route_fails_witness :
  let r := json_request {["name" := VStr "dave"]} in
  srv_status (serve users_kule "POST" (PList "users" "") r (initial_state mem_carol))
    = 500%Z
  ∧ srv_body (serve users_kule "POST" (PList "users" "") r (initial_state mem_carol))
    = error_envelope 500 "Internal Server Error"
  ∧ st_db (srv_state (serve users_kule "POST" (PList "users" "") r
                        (initial_state mem_carol))) = mem_carol.
Proof.
  intros r.
  refine (post_to_collection_route_fails users_kule "users" "" r
            (initial_state mem_carol) _).
  reflexivity.
Defined.

Lemma get_document_over_http_witness :
  serve bundling_kule "GET" (PDetail "users" hexid) (query_request ∅)
    (initial_state mem_carol)
  = Served 200 (Formatted jsonify (VDict (build_users_bundle carol)))
      (after_request (bind_request (query_request ∅) (initial_state mem_carol))).2.
Proof.
  refine (proj1 (get_document_over_http bundling_kule "users" hexid (Oid hexid) carol
                   (query_request ∅) (initial_state mem_carol) _ _ _ _ _)).
  - reflexivity.
  - exact I.
  - reflexivity.
  - reflexivity.
  - exact carol_not_empty.
Defined.

Lemma get_missing_document_over_http_witness :
  serve users_kule "GET" (PDetail "users" hexid) (query_request ∅)
    (initial_state mem_two)
  = Served 404 (error_envelope 404 abort_text)
      (bind_request (query_request ∅) (initial_state mem_two)).
Proof.
  refine (get_missing_document_over_http users_kule "users" hexid (Oid hexid)
            (query_request ∅) (initial_state mem_two) _ _ _ _).
  - reflexivity.
  - apply list_elem_of_here.
  - reflexivity.
  - reflexivity.
Defined.

Lemma collection_view_takes_precedence_witness :
  bottle_handle (reporting_kule (db:=memdb)) "GET" (PList "users" "")
  = get_users_list ∅.
Proof.
  refine (collection_view_takes_precedence reporting_kule "users" "get"
            get_users_list _ _ _).
  - apply list_elem_of_here.
  - apply list_elem_of_here.
  - reflexivity.
Defined.

Lemma collection_view_shadows_generic_route_witness :
  bottle_handle (reporting_kule (db:=memdb)) "POST" (PList "users" "")
  = λ s, (HTTPError 405 "Method not allowed.", s).
Proof.
  refine (collection_view_shadows_generic_route reporting_kule "users"
            get_users_list _ _ _).
  - apply list_elem_of_here.
  - reflexivity.
  - reflexivity.
Defined.

Lemma advertised_methods_are_the_routed_ones_witness :
  headers (st_response (after_request (initial_state mem_empty)).2)
    !! "Access-Control-Allow-Methods"
  = Some "GET, POST, OPTIONS".
Proof.
  refine (advertised_methods_are_the_routed_ones users_kule RList
            [("GET", view_get_list); ("POST", view_post_list);
             ("OPTIONS", view_empty_response)]
            (initial_state mem_empty) _ _).
  - reflexivity.
  - apply list_elem_of_here.
Defined.

(** ** The route table of any instance *)

Section RouteTable.
Context {db : Type} `{!Store db} `{!Bson}.
Implicit Types (self : @Kule db) (rt : @router db) (ts : @targets db) (c : string).

(** The per-collection loop adds rules of two shapes only, and only for
    views that exist. *)
Lemma router_targets_dispatch_collection self (meth : string) rt c' (r : rule) :
  (is_Some (getattr_view self (meth +:+ "_" +:+ c' +:+ "_list")) → r ≠ RCollectionList c') →
  (is_Some (getattr_view self (meth +:+ "_" +:+ c' +:+ "_detail")) →
   r ≠ RCollectionDetail c') →
  router_targets (dispatch_collection self meth rt c') r = router_targets rt r.
Proof.
  intros Hl Hd. unfold dispatch_collection, app_route.
  destruct (getattr_view self (meth +:+ "_" +:+ c' +:+ "_detail")) as [vd|];
    destruct (getattr_view self (meth +:+ "_" +:+ c' +:+ "_list")) as [vl|];
    rewrite ?router_targets_add;
    rewrite ?decide_False; try done; try (by apply Hl); by apply Hd.
Qed.

Lemma router_targets_dispatch_collections self (meth : string) rt (l : list string)
    (r : rule) :
  (∀ c', c' ∈ l → is_Some (getattr_view self (meth +:+ "_" +:+ c' +:+ "_list")) →
         r ≠ RCollectionList c') →
  (∀ c', c' ∈ l → is_Some (getattr_view self (meth +:+ "_" +:+ c' +:+ "_detail")) →
         r ≠ RCollectionDetail c') →
  router_targets (foldl (dispatch_collection self meth) rt l) r = router_targets rt r.
Proof.
  revert rt. induction l as [|c' l IH]; intros rt Hl Hd; simpl foldl; [done|].
  rewrite IH.
  - apply router_targets_dispatch_collection.
    + apply Hl, list_elem_of_here.
    + apply Hd, list_elem_of_here.
  - intros c'' Hin. by apply Hl, list_elem_of_further.
  - intros c'' Hin. by apply Hd, list_elem_of_further.
Qed.

(** One turn of the loop over the methods, seen from a generic rule. *)
Lemma route_of_dispatch_method_list self (meth : string) rt (M : string) :
  route_of (dispatch_method self rt meth) RList M
  = if decide (M = str_upper meth)
    then Some (default view_not_implemented (getattr_view self (meth +:+ "_list")))
    else route_of rt RList M.
Proof.
  unfold dispatch_method, app_route. rewrite !route_of_add.
  rewrite (decide_False (P := RList = RDetail ∧ _)) by (by intros [? _]).
  destruct (decide (M = str_upper meth)) as [->|HM].
  - by rewrite decide_True.
  - rewrite decide_False by (by intros [_ ?]).
    unfold route_of. by rewrite router_targets_dispatch_collections.
Qed.

Lemma route_of_dispatch_method_detail self (meth : string) rt (M : string) :
  route_of (dispatch_method self rt meth) RDetail M
  = if decide (M = str_upper meth)
    then Some (default view_not_implemented (getattr_view self (meth +:+ "_detail")))
    else route_of rt RDetail M.
Proof.
  unfold dispatch_method, app_route. rewrite !route_of_add.
  destruct (decide (M = str_upper meth)) as [->|HM].
  - by rewrite decide_True.
  - rewrite decide_False by (by intros [_ ?]).
    rewrite decide_False by (by intros [? _]).
    unfold route_of. by rewrite router_targets_dispatch_collections.
Qed.

(** What the finished table binds to the two generic rules: for each
    method of the loop the view of that name, or [not_implemented]. *)
Lemma route_of_dispatch_views_list self (meth : string) :
  meth ∈ enabled_methods →
  route_of (dispatch_views self) RList (str_upper meth)
  = Some (default view_not_implemented (getattr_view self (meth +:+ "_list"))).
Proof.
  intros Hm. unfold dispatch_views. simpl foldl.
  rewrite !route_of_dispatch_method_list.
  unfold enabled_methods in Hm. rewrite !elem_of_cons, elem_of_nil in Hm.
  destruct Hm as [->|[->|[->|[]]]].
  - rewrite (decide_False (P := str_upper "get" = str_upper "options")) by done.
    rewrite (decide_False (P := str_upper "get" = str_upper "post")) by done.
    by rewrite decide_True.
  - rewrite (decide_False (P := str_upper "post" = str_upper "options")) by done.
    by rewrite decide_True.
  - by rewrite decide_True.
Qed.

Lemma route_of_dispatch_views_detail self (meth : string) :
  meth ∈ enabled_methods →
  route_of (dispatch_views self) RDetail (str_upper meth)
  = Some (default view_not_implemented (getattr_view self (meth +:+ "_detail"))).
Proof.
  intros Hm. unfold dispatch_views. simpl foldl.
  rewrite !route_of_dispatch_method_detail.
  unfold enabled_methods in Hm. rewrite !elem_of_cons, elem_of_nil in Hm.
  destruct Hm as [->|[->|[->|[]]]].
  - rewrite (decide_False (P := str_upper "get" = str_upper "options")) by done.
    rewrite (decide_False (P := str_upper "get" = str_upper "post")) by done.
    by rewrite decide_True.
  - rewrite (decide_False (P := str_upper "post" = str_upper "options")) by done.
    by rewrite decide_True.
  - by rewrite decide_True.
Qed.

(** A per-collection rule that no turn of the loops adds is not in the
    table. *)
Lemma router_targets_dispatch_method self (meth : string) rt (r : rule) :
  r ≠ RList → r ≠ RDetail →
  (∀ c', c' ∈ default [] (collections self) →
         is_Some (getattr_view self (meth +:+ "_" +:+ c' +:+ "_list")) →
         r ≠ RCollectionList c') →
  (∀ c', c' ∈ default [] (collections self) →
         is_Some (getattr_view self (meth +:+ "_" +:+ c' +:+ "_detail")) →
         r ≠ RCollectionDetail c') →
  router_targets (dispatch_method self rt meth) r = router_targets rt r.
Proof.
  intros H1 H2 Hl Hd. unfold dispatch_method, app_route.
  rewrite !router_targets_add, !decide_False by done.
  by apply router_targets_dispatch_collections.
Qed.

Lemma router_targets_dispatch_views self (r : rule) :
  r ≠ RList → r ≠ RDetail →
  (∀ meth c', meth ∈ enabled_methods → c' ∈ default [] (collections self) →
         is_Some (getattr_view self (meth +:+ "_" +:+ c' +:+ "_list")) →
         r ≠ RCollectionList c') →
  (∀ meth c', meth ∈ enabled_methods → c' ∈ default [] (collections self) →
         is_Some (getattr_view self (meth +:+ "_" +:+ c' +:+ "_detail")) →
         r ≠ RCollectionDetail c') →
  router_targets (dispatch_views self) r = None.
Proof.
  intros H1 H2 Hl Hd. unfold dispatch_views. simpl foldl.
  rewrite !router_targets_dispatch_method; try done.
  all: intros c' Hin; first [apply Hl | apply Hd]; try done; unfold enabled_methods; in_list.
Qed.

(** A collection outside the allow-list has no rule of its own. *)
Lemma router_targets_outside_allow_list self c :
  c ∉ default [] (collections self) →
  router_targets (dispatch_views self) (RCollectionList c) = None
  ∧ router_targets (dispatch_views self) (RCollectionDetail c) = None.
Proof.
  intros Hc. split; apply router_targets_dispatch_views; try done.
  - intros meth c' _ Hin _ Heq. injection Heq as ->. by apply Hc.
  - intros meth c' _ Hin _ Heq. injection Heq as ->. by apply Hc.
Qed.

End RouteTable.

Section RouteMatch.
Context {db : Type} `{!Store db} `{!Bson}.
Implicit Types (self : @Kule db) (rt : @router db) (ts : @targets db) (c : string).

(** Which rule a collection path and a document path find. *)
Lemma first_match_static_list_none rt c (f : string) :
  router_targets rt (RCollectionList c) = None →
  first_match (List.filter (λ e, is_static e.1) rt) (PList c f) = None.
Proof.
  induction rt as [|[r ts] rt IH]; simpl; [done|].
  case_bool_decide as Hr; [done|]. intros Hnone.
  destruct r as [c'| | |]; simpl; try by apply IH.
  rewrite bool_decide_eq_false_2; [by apply IH|].
  intros [-> _]. by apply Hr.
Qed.

Lemma first_match_static_detail rt c (pk : string) :
  first_match (List.filter (λ e, is_static e.1) rt) (PDetail c pk) = None.
Proof.
  induction rt as [|[r ts] rt IH]; simpl; [done|].
  by destruct r.
Qed.

Lemma first_match_dynamic_list rt c (f : string) :
  first_match (List.filter (λ e, negb (is_static e.1)) rt) (PList c f)
  = (λ ts, (ts, list_kwargs c f)) <$> router_targets rt RList.
Proof.
  induction rt as [|[r ts] rt IH]; simpl; [done|].
  by destruct r.
Qed.

Lemma first_match_dynamic_detail rt c (pk : string) :
  router_targets rt (RCollectionDetail c) = None →
  first_match (List.filter (λ e, negb (is_static e.1)) rt) (PDetail c pk)
  = (λ ts, (ts, detail_kwargs c pk)) <$> router_targets rt RDetail.
Proof.
  induction rt as [|[r ts] rt IH]; simpl; [done|].
  case_bool_decide as Hr; [done|]. intros Hnone.
  destruct r as [c'|c'| |]; simpl; try by apply IH.
  - rewrite bool_decide_eq_false_2; [by apply IH|].
    intros ->. by apply Hr.
  - done.
Qed.

(** A generic route, when the collection has no rule of its own. *)
Lemma handle_generic_list self (meth : string) c (f : string) :
  meth ∈ enabled_methods →
  router_targets (dispatch_views self) (RCollectionList c) = None →
  bottle_handle self (str_upper meth) (PList c f)
  = call_view self (default view_not_implemented (getattr_view self (meth +:+ "_list")))
      (list_kwargs c f).
Proof.
  intros Hm Hnone. pose proof (route_of_dispatch_views_list self meth Hm) as Hr.
  unfold bottle_handle, router_match.
  rewrite first_match_static_list_none by done. rewrite first_match_dynamic_list.
  unfold route_of in Hr.
  destruct (router_targets (dispatch_views self) RList) as [ts|]; [|done].
  simpl. by rewrite Hr.
Qed.

Lemma handle_generic_detail self (meth : string) c (pk : string) :
  meth ∈ enabled_methods →
  router_targets (dispatch_views self) (RCollectionDetail c) = None →
  bottle_handle self (str_upper meth) (PDetail c pk)
  = call_view self (default view_not_implemented (getattr_view self (meth +:+ "_detail")))
      (detail_kwargs c pk).
Proof.
  intros Hm Hnone. pose proof (route_of_dispatch_views_detail self meth Hm) as Hr.
  unfold bottle_handle, router_match.
  rewrite first_match_static_detail. rewrite first_match_dynamic_detail by done.
  unfold route_of in Hr.
  destruct (router_targets (dispatch_views self) RDetail) as [ts|]; [|done].
  simpl. by rewrite Hr.
Qed.

(** *** The methods of the table *)

Lemma targets_set_methods (ms : list string) ts (m : string) (v : view) :
  m ∈ ms → Forall (λ t : string * view, t.1 ∈ ms) ts →
  Forall (λ t : string * view, t.1 ∈ ms) (targets_set ts m v).
Proof.
  intros Hm. induction 1 as [|[m0 v0] ts H0 Hts IH]; simpl.
  - by repeat constructor.
  - case_bool_decide; constructor; done.
Qed.

Lemma router_add_methods (ms : list string) rt (r : rule) (m : string) (v : view) :
  m ∈ ms → methods_within ms rt → methods_within ms (router_add rt r m v).
Proof.
  intros Hm. unfold methods_within. induction 1 as [|[r0 ts] rt H0 Hrt IH]; simpl.
  - by repeat constructor.
  - case_bool_decide; constructor; try done. by apply targets_set_methods.
Qed.

Lemma dispatch_collection_methods (ms : list string) self (meth : string) rt c :
  str_upper meth ∈ ms → methods_within ms rt →
  methods_within ms (dispatch_collection self meth rt c).
Proof.
  intros Hm Hrt. unfold dispatch_collection, app_route.
  destruct (getattr_view self (meth +:+ "_" +:+ c +:+ "_list"));
    destruct (getattr_view self (meth +:+ "_" +:+ c +:+ "_detail"));
    repeat apply router_add_methods; done.
Qed.

Lemma dispatch_method_methods (ms : list string) self (meth : string) rt :
  str_upper meth ∈ ms → methods_within ms rt →
  methods_within ms (dispatch_method self rt meth).
Proof.
  intros Hm Hrt. unfold dispatch_method, app_route.
  repeat apply router_add_methods; try done.
  generalize (default [] (collections self)). intros l.
  revert rt Hrt. induction l as [|c l IH]; intros rt Hrt; simpl foldl; [done|].
  by apply IH, dispatch_collection_methods.
Qed.

(** Whatever views the instance has, its routes are for GET, POST and
    OPTIONS. *)
Lemma dispatch_views_methods self :
  methods_within ["GET"; "POST"; "OPTIONS"] (dispatch_views self).
Proof.
  unfold dispatch_views. simpl foldl.
  repeat apply dispatch_method_methods; try (by constructor); in_list.
Qed.

Lemma targets_get_outside (ms : list string) ts (m : string) :
  Forall (λ t : string * view, t.1 ∈ ms) ts → m ∉ ms → targets_get ts m = None.
Proof.
  intros Hts Hm. induction Hts as [|[m0 v0] ts H0 Hts IH]; simpl; [done|].
  rewrite bool_decide_eq_false_2; [done|]. intros ->. by apply Hm.
Qed.

Lemma first_match_targets (ms : list string) rt (p : path) ts
    (kwargs : gmap string string) :
  methods_within ms rt → first_match rt p = Some (ts, kwargs) →
  Forall (λ t : string * view, t.1 ∈ ms) ts.
Proof.
  unfold methods_within. induction 1 as [|[r0 ts0] rt H0 Hrt IH]; simpl; [done|].
  destruct (rule_args r0 p); [|done]. by intros [= <- _].
Qed.

Lemma filter_methods (ms : list string) rt (keep : rule * targets → bool) :
  methods_within ms rt → methods_within ms (List.filter keep rt).
Proof.
  unfold methods_within. induction 1 as [|e rt H0 Hrt IH]; simpl; [done|].
  destruct (keep e); [by constructor|done].
Qed.

Lemma first_match_dynamic_detail_found rt c (pk : string) :
  is_Some (router_targets rt RDetail) →
  is_Some (first_match (List.filter (λ e, negb (is_static e.1)) rt) (PDetail c pk)).
Proof.
  induction rt as [|[r ts] rt IH]; simpl; [by intros [? ?]|].
  case_bool_decide as Hr.
  - subst r. simpl. eauto.
  - intros Hsome. destruct r as [c'|c'| |]; simpl.
    + by apply IH.
    + case_bool_decide; [eauto|by apply IH].
    + by apply IH.
    + done.
Qed.

(** A method without routes, on a collection path or a document path:
    the path is found, the method is not. *)
Lemma handle_disabled_method self (m : string) (p : path) :
  m ∈ ["PUT"; "PATCH"; "DELETE"] → (∀ raw, p ≠ POther raw) →
  bottle_handle self m p = λ s, (HTTPError 405 "Method not allowed.", s).
Proof.
  intros Hm Hp. unfold bottle_handle, router_match.
  pose proof (dispatch_views_methods self) as Hms.
  set (rt := dispatch_views self) in *.
  assert (∃ ts kwargs,
            match first_match (List.filter (λ e, is_static e.1) rt) p with
            | Some x => Some x
            | None => first_match (List.filter (λ e, negb (is_static e.1)) rt) p
            end = Some (ts, kwargs)
            ∧ Forall (λ t : string * view, t.1 ∈ ["GET"; "POST"; "OPTIONS"]) ts)
    as (ts & kwargs & -> & Hts).
  { destruct (first_match (List.filter (λ e, is_static e.1) rt) p)
      as [[ts kwargs]|] eqn:Hs.
    - exists ts, kwargs. split; [done|].
      by eapply first_match_targets; [apply filter_methods|].
    - assert (is_Some (first_match (List.filter (λ e, negb (is_static e.1)) rt) p))
        as [[ts kwargs] Hd].
      { destruct p as [c f|c pk|raw]; [| |by destruct (Hp raw)].
        - rewrite first_match_dynamic_list.
          pose proof (route_of_dispatch_views_list self "get" ltac:(in_list)) as Hr.
          unfold route_of in Hr. fold rt in Hr.
          destruct (router_targets rt RList); [by eexists|done].
        - apply first_match_dynamic_detail_found.
          pose proof (route_of_dispatch_views_detail self "get" ltac:(in_list)) as Hr.
          unfold route_of in Hr. fold rt in Hr.
          destruct (router_targets rt RDetail); [by eexists|done]. }
      exists ts, kwargs. split; [done|].
      by eapply first_match_targets; [apply filter_methods|]. }
  rewrite (targets_get_outside _ ts "ANY" Hts)
    by (rewrite !not_elem_of_cons; repeat split; try done; apply not_elem_of_nil).
  rewrite !elem_of_cons, elem_of_nil in Hm.
  destruct Hm as [->|[->|[->|[]]]];
    rewrite (targets_get_outside _ ts _ Hts)
      by (rewrite !not_elem_of_cons; repeat split; try done; apply not_elem_of_nil);
    done.
Qed.

End RouteMatch.

(** ** The allow-list and the unbound routes over HTTP *)

Section RouteProperties.
Context {db : Type} `{!Store db} `{!Bson}.
Implicit Types (self : @Kule db) (w : @state db) (c pk : string).

Lemma forbidden_outside self c : forbidden self c → c ∉ default [] (collections self).
Proof. unfold forbidden. by destruct (collections self) as [[|x l]|]. Qed.

(** A generic route whose view the instance has not redefined runs the
    view of class [Kule]. *)
Lemma handle_kept_list self (meth : string) c (f : string) (v : view) :
  meth ∈ enabled_methods →
  router_targets (dispatch_views self) (RCollectionList c) = None →
  views self !! (meth +:+ "_list") = None →
  Kule_views !! (meth +:+ "_list") = Some v →
  bottle_handle self (str_upper meth) (PList c f) = call_view self v (list_kwargs c f).
Proof.
  intros Hm Hnone Hv Hk. rewrite handle_generic_list by done.
  unfold getattr_view. by rewrite Hv, Hk.
Qed.

Lemma handle_kept_detail self (meth : string) c pk (v : option view) :
  meth ∈ enabled_methods →
  router_targets (dispatch_views self) (RCollectionDetail c) = None →
  views self !! (meth +:+ "_detail") = None →
  Kule_views !! (meth +:+ "_detail") = v →
  bottle_handle self (str_upper meth) (PDetail c pk)
  = call_view self (default view_not_implemented v) (detail_kwargs c pk).
Proof.
  intros Hm Hnone Hv Hk. rewrite handle_generic_detail by done.
  unfold getattr_view. by rewrite Hv, Hk.
Qed.

Lemma enabled_get : "get" ∈ enabled_methods.
Proof. unfold enabled_methods. in_list. Qed.

Lemma enabled_post : "post" ∈ enabled_methods.
Proof. unfold enabled_methods. in_list. Qed.

Lemma enabled_options : "options" ∈ enabled_methods.
Proof. unfold enabled_methods. in_list. Qed.

Lemma handle_get_list_kept self c (f : string) :
  router_targets (dispatch_views self) (RCollectionList c) = None →
  views self !! "get_list" = None →
  bottle_handle self "GET" (PList c f) = get_list self c f.
Proof.
  intros Hnone Hv.
  exact (handle_kept_list self "get" c f view_get_list enabled_get Hnone Hv eq_refl).
Qed.

Lemma handle_get_detail_kept self c pk :
  router_targets (dispatch_views self) (RCollectionDetail c) = None →
  views self !! "get_detail" = None →
  bottle_handle self "GET" (PDetail c pk) = get_detail self c pk.
Proof.
  intros Hnone Hv.
  exact (handle_kept_detail self "get" c pk (Some view_get_detail) enabled_get Hnone Hv
           eq_refl).
Qed.

Lemma handle_options_list_kept self c (f : string) :
  router_targets (dispatch_views self) (RCollectionList c) = None →
  views self !! "options_list" = None →
  bottle_handle self "OPTIONS" (PList c f) = empty_response.
Proof.
  intros Hnone Hv.
  exact (handle_kept_list self "options" c f view_empty_response enabled_options Hnone Hv
           eq_refl).
Qed.

Lemma handle_options_detail_kept self c pk :
  router_targets (dispatch_views self) (RCollectionDetail c) = None →
  views self !! "options_detail" = None →
  bottle_handle self "OPTIONS" (PDetail c pk) = empty_response.
Proof.
  intros Hnone Hv.
  exact (handle_kept_detail self "options" c pk (Some view_empty_response)
           enabled_options Hnone Hv eq_refl).
Qed.

Lemma handle_post_detail_kept self c pk :
  router_targets (dispatch_views self) (RCollectionDetail c) = None →
  views self !! "post_detail" = None →
  bottle_handle self "POST" (PDetail c pk) = not_implemented.
Proof.
  intros Hnone Hv.
  exact (handle_kept_detail self "post" c pk None enabled_post Hnone Hv eq_refl).
Qed.

(** C5, as the code has it: with an allow-list configured, every gateway
    operation that reaches the store fails with 403 on a collection that
    is not in the list, before the store or the response is touched, on
    every instance.  Over HTTP, whatever views the instance has for the
    collections of the list: when it has not redefined [get_list] and
    [get_detail], every GET request naming such a collection is answered
    403 with the error envelope; and when it has not redefined
    [options_list] and [options_detail], an OPTIONS request naming such a
    collection runs [empty_response], which makes no check, and is
    answered 200 with an empty body.  The store is untouched in both. *)
Theorem allow_list_guards_store_operations self c (r : request) w :
  forbidden self c →
  (∀ op pk, op ∈ detail_ops → op self c pk w = (HTTPError 403 abort_text, w))
  ∧ post_list self c w = (HTTPError 403 abort_text, w)
  ∧ (∀ format, get_list self c format w = (HTTPError 403 abort_text, w))
  ∧ (views self !! "get_list" = None → views self !! "get_detail" = None →
     ∀ p, (∃ f, p = PList c f) ∨ (∃ pk, p = PDetail c pk) →
       srv_status (serve self "GET" p r w) = 403%Z
       ∧ srv_body (serve self "GET" p r w) = error_envelope 403 abort_text
       ∧ st_db (srv_state (serve self "GET" p r w)) = st_db w)
  ∧ (views self !! "options_list" = None → views self !! "options_detail" = None →
     ∀ p, (∃ f, p = PList c f) ∨ (∃ pk, p = PDetail c pk) →
       srv_status (serve self "OPTIONS" p r w) = 200%Z
       ∧ srv_body (serve self "OPTIONS" p r w) = NoBody
       ∧ st_db (srv_state (serve self "OPTIONS" p r w)) = st_db w).
Proof.
  intros Hf.
  destruct (forbidden_ops self c w Hf) as (Hd & Hpost & Hl).
  destruct (forbidden_ops self c (bind_request r w) Hf) as (Hd' & _ & Hl').
  destruct (router_targets_outside_allow_list self c (forbidden_outside self c Hf))
    as [HnoL HnoD].
  split; [done|]. split; [done|]. split; [done|]. split.
  - intros Hgl Hgd p [[f ->]|[pk ->]].
    + rewrite (serve_of_error self "GET" (PList c f) r w 403 abort_text (bind_request r w));
        [done|].
      by rewrite handle_get_list_kept.
    + rewrite (serve_of_error self "GET" (PDetail c pk) r w 403 abort_text
                 (bind_request r w)); [done|].
      rewrite handle_get_detail_kept by done. apply Hd'. in_list.
  - intros Hol Hod p [[f ->]|[pk ->]].
    + rewrite (serve_of_return self "OPTIONS" (PList c f) r w NoBody (bind_request r w));
        [done|].
      by rewrite handle_options_list_kept.
    + rewrite (serve_of_return self "OPTIONS" (PDetail c pk) r w NoBody
                 (bind_request r w)); [done|].
      by rewrite handle_options_detail_kept.
Qed.

(** C7, as the code has it: routes are bound for GET, POST and OPTIONS
    only.  Among these, the one combination for which the gateway has no
    operation is POST on a document route: on an instance that defines no
    [post_detail], and for a collection without document views of its
    own, it is bound to [not_implemented] and answered 501.  PUT, PATCH
    and DELETE have no route at all: on a collection or document path the
    router answers 405, on every instance, and the store is not
    touched. *)
Theorem unbound_routes self (r : request) w :
  (∀ c pk,
     views self !! "post_detail" = None →
     (∀ meth : string, meth ∈ enabled_methods →
        views self !! (meth +:+ "_" +:+ c +:+ "_detail") = None) →
     srv_status (serve self "POST" (PDetail c pk) r w) = 501%Z
     ∧ srv_body (serve self "POST" (PDetail c pk) r w) = error_envelope 501 abort_text)
  ∧ (∀ (m : string) p, m ∈ ["PUT"; "PATCH"; "DELETE"] → (∀ raw, p ≠ POther raw) →
       srv_status (serve self m p r w) = 405%Z
       ∧ srv_body (serve self m p r w) = error_envelope 405 "Method not allowed."
       ∧ st_db (srv_state (serve self m p r w)) = st_db w).
Proof.
  split.
  - intros c pk Hpd Hnone.
    assert (router_targets (dispatch_views self) (RCollectionDetail c) = None) as HnoD.
    { apply router_targets_dispatch_views; try done.
      intros meth c' Hm _ Hsome Heq. injection Heq as <-.
      unfold getattr_view in Hsome. rewrite (Hnone meth Hm) in Hsome.
      rewrite (Kule_views_no_magic meth c "_detail") in Hsome; [|done|in_list].
      by destruct Hsome. }
    rewrite (serve_of_error self "POST" (PDetail c pk) r w 501 abort_text
               (bind_request r w)); [done|].
    by rewrite handle_post_detail_kept.
  - intros m p Hm Hp.
    rewrite (serve_of_error self m p r w 405 "Method not allowed." (bind_request r w));
      [done|].
    by rewrite handle_disabled_method.
Qed.

End RouteProperties.

Lemma allow_list_guards_store_operations_witness :
  srv_status (serve reporting_kule "GET" (PList "orders" ".csv")
                (query_request ∅) (initial_state mem_empty)) = 403%Z
  ∧ srv_status (serve reporting_kule "OPTIONS" (PList "orders" "")
                  (query_request ∅) (initial_state mem_empty)) = 200%Z.
Proof.
  assert (forbidden (reporting_kule (db:=memdb)) "orders") as Hf.
  { intros Hin. apply list_elem_of_singleton in Hin. discriminate Hin. }
  destruct (allow_list_guards_store_operations reporting_kule "orders" (query_request ∅)
              (initial_state mem_empty) Hf) as (_ & _ & _ & Hget & Hopt).
  split.
  - refine (proj1 (Hget _ _ (PList "orders" ".csv") _)).
    + reflexivity.
    + reflexivity.
    + left. by exists ".csv".
  - refine (proj1 (Hopt _ _ (PList "orders" "") _)).
    + reflexivity.
    + reflexivity.
    + left. by exists "".
Defined.

Lemma unbound_routes_witness :
  srv_status (serve reporting_kule "POST" (PDetail "users" hexid)
                (query_request ∅) (initial_state mem_two)) = 501%Z
  ∧ srv_status (serve reporting_kule "DELETE" (PList "users" "")
                  (query_request ∅) (initial_state mem_two)) = 405%Z.
Proof.
  destruct (unbound_routes reporting_kule (query_request ∅) (initial_state mem_two))
    as [Hpost Hdis].
  split.
  - refine (proj1 (Hpost "users" hexid _ _)).
    + reflexivity.
    + intros meth Hm. unfold enabled_methods in Hm.
      rewrite !elem_of_cons, elem_of_nil in Hm.
      by destruct Hm as [->|[->|[->|[]]]].
  - refine (proj1 (Hdis "DELETE" (PList "users" "") _ _)).
    + apply list_elem_of_further, list_elem_of_further, list_elem_of_here.
    + discriminate.
Defined.
